(** * PDFextractor: a shallow embedding of [extract.py], [ocr.py] and
    [batch_ocr.py], and the properties of the line-item extractor and of the
    OCR front end.

    Text is modelled as [list ascii]; a character is a code point in the
    range U+0000..U+00FF.  On that range Python's [\d] is exactly [0-9] and
    [\s] / [str.isspace] is the set listed in [isspace] below. *)

From Stdlib Require Import Ascii String.
From Stdlib Require Import List ZArith Lia Bool Arith.
Import ListNotations.

Set Implicit Arguments.

Definition str := list ascii.

(** String literals of the source are written [s{"..."}]. *)
Notation "s{ x }" := (list_ascii_of_string x%string) (at level 0, format "s{ x }").

(* ===================================================================== *)
(** ** The Python built-ins the three scripts use *)
(* ===================================================================== *)

Module Py.

Definition code (c : ascii) : nat := nat_of_ascii c.

Definition between (lo hi : nat) (c : ascii) : bool :=
  (lo <=? code c) && (code c <=? hi).

(** [str.isspace] on one character, equally the class [\s] of [re]:
    TAB LF VT FF CR, FS GS RS US, SPACE, NEL (0x85), NBSP (0xA0). *)
Definition isspace (c : ascii) : bool :=
  between 9 13 c || between 28 32 c || (code c =? 133) || (code c =? 160).

(** The class [\d]. *)
Definition isdigit (c : ascii) : bool := between 48 57 c.

Definition newline : ascii := ascii_of_nat 10.

Definition is_newline (c : ascii) : bool := Ascii.eqb c newline.

Fixpoint lstrip (s : str) : str :=
  match s with
  | c :: s' => if isspace c then lstrip s' else s
  | [] => []
  end.

Definition rstrip (s : str) : str := rev (lstrip (rev s)).

(** [s.strip()] *)
Definition strip (s : str) : str := rstrip (lstrip s).

(** [s.split(sep)] for a one-character separator: never the empty list. *)
Fixpoint split (sep : ascii) (s : str) : list str :=
  match s with
  | [] => [[]]
  | c :: s' =>
      if Ascii.eqb c sep then [] :: split sep s'
      else match split sep s' with
           | h :: t => (c :: h) :: t
           | [] => [[c]]
           end
  end.

(** [sep.join(l)] *)
Fixpoint join (sep : str) (l : list str) : str :=
  match l with
  | [] => []
  | [x] => x
  | x :: l' => x ++ sep ++ join sep l'
  end.

(** [s.startswith(p)] *)
Fixpoint startswith (p s : str) : bool :=
  match p, s with
  | [], _ => true
  | a :: p', b :: s' => Ascii.eqb a b && startswith p' s'
  | _ :: _, [] => false
  end.

(** [sub in s] *)
Fixpoint contains (sub s : str) : bool :=
  startswith sub s ||
  match s with
  | [] => false
  | _ :: s' => contains sub s'
  end.

(** [s.replace(old, new)] for a non-empty [old]: every non-overlapping
    occurrence, left to right.  [skip] counts the characters of an
    occurrence that are still to be dropped. *)
Fixpoint replace_from (old new : str) (skip : nat) (s : str) : str :=
  match s with
  | [] => []
  | c :: s' =>
      match skip with
      | S k => replace_from old new k s'
      | 0 => if startswith old s
             then new ++ replace_from old new (pred (length old)) s'
             else c :: replace_from old new 0 s'
      end
  end.

Definition replace (old new s : str) : str := replace_from old new 0 s.

(** [os.path.basename(p)] (POSIX): what follows the last ['/']. *)
Definition basename (p : str) : str := last (split "/"%char p) [].

(** [l[0]] on the result of [split], which is never empty. *)
Definition first (l : list str) : str := hd [] l.

(** [a == b] on strings. *)
Fixpoint eqs (a b : str) : bool :=
  match a, b with
  | [], [] => true
  | x :: a', y :: b' => Ascii.eqb x y && eqs a' b'
  | _, _ => false
  end.

End Py.

(* ===================================================================== *)
(** ** The fragment of [re] the scripts use

    A backtracking matcher.  [run r s g] lists, in the order in which the
    backtracking engine of [re] tries them, all the ways in which [r]
    matches a prefix of the remaining input [s]; the engine's answer is the
    head of that list.  Greedy repetitions list longer matches first, lazy
    ones shorter matches first.  All anchors of the source patterns look
    ahead only ([$] under [re.MULTILINE]), so the remaining input is all
    the context a match needs. *)
(* ===================================================================== *)

Module Re.

(** The text captured by each group; [''] while a group is unset, as
    [findall] reports it. *)
Definition groups := nat -> str.

Definition no_groups : groups := fun _ => [].

Definition set_group (n : nat) (w : str) (g : groups) : groups :=
  fun k => if k =? n then w else g k.

Record result := mk { consumed : str; rest : str; caps : groups }.

Inductive re :=
| Chr (p : ascii -> bool)                         (* one character of a class *)
| Cat (r1 r2 : re)                                (* r1 r2 *)
| Alt (r1 r2 : re)                                (* r1|r2 *)
| Rep (r : re) (lo : nat) (hi : option nat) (greedy : bool)
                                                  (* r{lo,hi} and r{lo,hi}? *)
| Grp (n : nat) (r : re)                          (* the n-th ( ... ) *)
| Eol.                                            (* $ under re.MULTILINE *)

Definition exhausted (hi : option nat) : bool :=
  match hi with Some 0 => true | _ => false end.

Definition after (w : str) (a : result) : result :=
  mk (w ++ consumed a) (rest a) (caps a).

(** Repetition of [body].  Every iteration of the source's loops consumes
    at least one character, so [S (length s)] rounds of [fuel] are never
    used up; an iteration that consumes nothing is cut. *)
Fixpoint loop (body : str -> groups -> list result) (greedy : bool)
    (fuel lo : nat) (hi : option nat) (s : str) (g : groups) : list result :=
  match fuel with
  | 0 => []
  | S fuel' =>
      let stop := if lo =? 0 then [mk [] s g] else [] in
      let more :=
        if exhausted hi then []
        else flat_map
               (fun a =>
                  match consumed a with
                  | [] => []
                  | _ :: _ =>
                      map (after (consumed a))
                        (loop body greedy fuel' (pred lo) (option_map pred hi)
                           (rest a) (caps a))
                  end)
               (body s g) in
      if greedy then more ++ stop else stop ++ more
  end.

Fixpoint run (r : re) (s : str) (g : groups) : list result :=
  match r with
  | Chr p =>
      match s with
      | c :: s' => if p c then [mk [c] s' g] else []
      | [] => []
      end
  | Cat r1 r2 =>
      flat_map (fun a => map (after (consumed a)) (run r2 (rest a) (caps a)))
        (run r1 s g)
  | Alt r1 r2 => run r1 s g ++ run r2 s g
  | Rep r' lo hi greedy => loop (run r') greedy (S (length s)) lo hi s g
  | Grp n r' =>
      map (fun a => mk (consumed a) (rest a) (set_group n (consumed a) (caps a)))
        (run r' s g)
  | Eol =>
      match s with
      | [] => [mk [] [] g]
      | c :: _ => if Py.is_newline c then [mk [] s g] else []
      end
  end.

(** The match the engine reports at the current position, if any. *)
Definition match_here (r : re) (s : str) : option result :=
  match run r s no_groups with
  | m :: _ => Some m
  | [] => None
  end.

(** [pattern.search(s) is not None] *)
Fixpoint search (r : re) (s : str) : bool :=
  match match_here r s with
  | Some _ => true
  | None => match s with
            | [] => false
            | _ :: s' => search r s'
            end
  end.

(** [pattern.findall(s)]: the scan resumes where the previous match ended
    ([skip] characters further), one character further after a failure or
    an empty match. *)
Fixpoint findall_from (r : re) (skip : nat) (s : str) : list groups :=
  match skip with
  | S k =>
      match s with
      | [] => []
      | _ :: s' => findall_from r k s'
      end
  | 0 =>
      match match_here r s with
      | Some m =>
          caps m ::
          match s with
          | [] => []
          | _ :: s' => findall_from r (pred (length (consumed m))) s'
          end
      | None =>
          match s with
          | [] => []
          | _ :: s' => findall_from r 0 s'
          end
      end
  end.

Definition findall (r : re) (s : str) : list groups := findall_from r 0 s.

(** [pattern.sub(repl, s)] for a pattern that matches no empty string. *)
Fixpoint sub_from (r : re) (repl : str) (skip : nat) (s : str) : str :=
  match skip with
  | S k =>
      match s with
      | [] => []
      | _ :: s' => sub_from r repl k s'
      end
  | 0 =>
      match match_here r s with
      | Some m =>
          match consumed m, s with
          | _ :: _, _ :: s' =>
              repl ++ sub_from r repl (pred (length (consumed m))) s'
          | _, c :: s' => c :: sub_from r repl 0 s'
          | _, [] => []
          end
      | None =>
          match s with
          | [] => []
          | c :: s' => c :: sub_from r repl 0 s'
          end
      end
  end.

Definition sub (r : re) (repl s : str) : str := sub_from r repl 0 s.

(** Pattern syntax of the source. *)
Definition dot : re := Chr (fun c => negb (Py.is_newline c)).   (* .  *)
Definition ws : re := Chr Py.isspace.                            (* \s *)
Definition nonws : re := Chr (fun c => negb (Py.isspace c)).     (* \S *)
Definition digit : re := Chr Py.isdigit.                         (* \d *)
Definition lit (a : ascii) : re := Chr (Ascii.eqb a).
Definition plus (r : re) : re := Rep r 1 None true.              (* r+ *)
Definition star (r : re) : re := Rep r 0 None true.              (* r* *)

End Re.

(* ===================================================================== *)
(** ** Effects: what a script prints, calls and writes, and the exceptions
    that cut it short *)
(* ===================================================================== *)

Module Eff.

Inductive exn := TesseractNotFoundError | OtherError.

Section Monad.
Variable E : Type.

(** A computation yields the events it produced and either the
    exception that ended it or its value. *)
Definition M (A : Type) : Type := (list E * (exn + A))%type.

Definition ret {A} (a : A) : M A := ([], inr a).

Definition bind {A B} (m : M A) (k : A -> M B) : M B :=
  match m with
  | (l, inl x) => (l, inl x)
  | (l, inr a) => let (l', r) := k a in (l ++ l', r)
  end.

Definition emit (e : E) : M unit := ([e], inr tt).

(** The answer of an external call: it raises or returns. *)
Definition lift {A} (r : exn + A) : M A := ([], r).

(** [try: m  except ...: h] *)
Definition try_except {A} (m : M A) (h : exn -> M A) : M A :=
  match m with
  | (l, inl x) => let (l', r) := h x in (l ++ l', r)
  | (l, inr a) => (l, inr a)
  end.
End Monad.

Arguments ret {E A} a.
Arguments bind {E A B} m k.
Arguments emit {E} e.
Arguments lift {E A} r.
Arguments try_except {E A} m h.

Definition events {E A} (m : M E A) : list E := fst m.
Definition value {E A} (m : M E A) : exn + A := snd m.

End Eff.

Import Eff.

Declare Scope eff_scope.
Delimit Scope eff_scope with eff.
Notation "x <- m ;; k" := (bind m (fun x => k))
  (at level 61, m at next level, right associativity) : eff_scope.
Notation "m ;; k" := (bind m (fun _ => k))
  (at level 61, right associativity) : eff_scope.

(* ===================================================================== *)
(** ** extract.py *)
(* ===================================================================== *)

Module Extract.
Import Re.
Local Open Scope eff_scope.

(** [GENERIC_STREAM_SETTINGS] *)
Record table_settings := {
  vertical_strategy : str;
  horizontal_strategy : str;
  snap_tolerance : Z
}.

Definition GENERIC_STREAM_SETTINGS : table_settings :=
  {| vertical_strategy := s{"lines"};
     horizontal_strategy := s{"lines"};
     snap_tolerance := 7 |}.

(** [GENERIC_CROP_AREA] *)
Definition GENERIC_CROP_AREA : Z * Z * Z * Z := (20, 250, 590, 780)%Z.

(** [PRICE_REGEX]:
    [(.{10,}?)\s+ (?:\S+\s+){0,5} \$(\d{1,3}(?:,\d{3})*\.\d{2})\s*$], compiled
    with [re.MULTILINE | re.IGNORECASE] (the pattern has no letter). *)
Definition PRICE_NUMBERS : re :=
  Cat (Rep digit 1 (Some 3) true)
 (Cat (star (Cat (lit ",") (Rep digit 3 (Some 3) true)))
 (Cat (lit ".") (Rep digit 2 (Some 2) true))).

Definition PRICE_REGEX : re :=
  Cat (Grp 1 (Rep dot 10 None false))
 (Cat (plus ws)
 (Cat (Rep (Cat (plus nonws) (plus ws)) 0 (Some 5) true)
 (Cat (lit "$")
 (Cat (Grp 2 PRICE_NUMBERS)
 (Cat (star ws) Eol))))).

(** The pattern of line 57, under [re.MULTILINE]: one group holding [\s+],
    then one to ten characters of [[\d,\.]], then [\s*]; after the group,
    [$]. *)
Definition TRAILING_NUMBERS : re :=
  Cat (Grp 1
         (Cat (plus ws)
         (Cat (Rep (Chr (fun c => Py.isdigit c || Ascii.eqb c "," || Ascii.eqb c "."))
                 1 (Some 10) true)
              (star ws))))
      Eol.

(** [(\d|\$)], lines 110 and 118. *)
Definition CURRENCY_LIKE : re := Grp 1 (Alt digit (lit "$")).

Definition get_vendor_info (filename : str) : str :=
  if Py.contains s{"Haskins Inc"} filename || Py.contains s{"Rinker"} filename
  then s{"Rinker"}
  else if Py.contains s{"Foley"} filename
  then s{"Foley"}
  else Py.first (Py.split "." (Py.first (Py.split "_" (Py.basename filename)))).

(** A row of the output frame. *)
Record record := { Description : str; Total_Price : str }.

Inductive msg :=
| VendorStart (vendor : str)          (* line 84 *)
| StrategyA                           (* line 92 *)
| StrategyAOk                         (* line 101 *)
| StrategyB                           (* line 43 *)
| RegexSuccess (n : nat)              (* line 70 *)
| FinalSuccess (n : nat) (output_file : str)   (* line 137 *)
| BothFailed                          (* line 140 *)
| Unexpected.                         (* line 144 *)

Inductive region := Whole | Cropped (bbox : Z * Z * Z * Z).

Inductive event :=
| Print (m : msg)
| Open (pdf_path : str)               (* pdfplumber.open *)
| ExtractTable (r : region)           (* [page.crop(bbox)].extract_table *)
| ExtractText                         (* page.extract_text *)
| Write (output_file : str) (rows : list record).
                                      (* the markdown rendering of [rows] *)

Definition print (m : msg) : M event unit := emit (Print m).

(** *** Strategy B *)

Definition nonblank (line : str) : bool :=
  match Py.strip line with [] => false | _ :: _ => true end.

Definition clean_description (description_raw : str) : str :=
  Py.strip (sub TRAILING_NUMBERS [] description_raw).

Definition regex_matches (page_text : str) : list (str * str) :=
  let lines := Py.split Py.newline page_text in
  let cleaned_text :=
    Py.join [Py.newline] (map Py.strip (filter nonblank lines)) in
  map (fun g : groups => (g 1, g 2)) (findall PRICE_REGEX cleaned_text).

Definition regex_data (matches : list (str * str)) : list record :=
  flat_map
    (fun m : str * str =>
       let (description_raw, price_numbers) := m in
       let description := clean_description description_raw in
       let total_price := "$"%char :: price_numbers in
       if 5 <? length description
       then [ {| Description := description; Total_Price := total_price |} ]
       else [])
    matches.

(** [extract_with_regex]; [None] is Python's [None], [Some data] the frame
    built from the non-empty [data]. *)
Definition extract_with_regex (page_text filename : str)
  : M event (option (list record)) :=
  print StrategyB ;;
  let matches := regex_matches page_text in
  match matches with
  | [] => ret None
  | _ :: _ =>
      let data := regex_data matches in
      match data with
      | _ :: _ => print (RegexSuccess (length data)) ;; ret (Some data)
      | [] => ret None
      end
  end.

(** *** Strategy A *)

(** A cell of [extract_table]'s answer is a string or [None]. *)
Definition cell := option str.
Definition table := list (list cell).

(** [pd.DataFrame(table_data)]: as many columns as the longest row has
    cells, shorter rows padded with [None]. *)
Record DataFrame := { ncols : nat; rows : list (list cell) }.

Definition frame (table_data : table) : DataFrame :=
  {| ncols := fold_right (fun row n => Nat.max (length row) n) 0 table_data;
     rows := table_data |}.

(** [df.iloc[1:]] *)
Definition drop_header (df : DataFrame) : DataFrame :=
  {| ncols := ncols df; rows := tl (rows df) |}.

(** [len(df)] *)
Definition len (df : DataFrame) : Z := Z.of_nat (length (rows df)).

Definition at_col (i : Z) (row : list cell) : cell := nth (Z.to_nat i) row None.

(** [.astype(str)] on one cell: [None] becomes the text ['None']. *)
Definition astype_str (c : cell) : str :=
  match c with
  | Some s => s
  | None => s{"None"}
  end.

(** [.astype(str).str.contains(r'(\d|\$)', na=False)] on one cell. *)
Definition currency_like (c : cell) : bool := search CURRENCY_LIKE (astype_str c).

(** [col_data.str.contains(...).sum()] for column [i]. *)
Definition currency_count (df : DataFrame) (i : Z) : Z :=
  Z.of_nat (length (filter (fun row => currency_like (at_col i row)) (rows df))).

(** [currency_count / len(df) > 0.5]: the quotient of the two integers
    exceeds one half exactly when twice the count exceeds the length (the
    float division is exact enough for any frame of fewer than 2^53 rows). *)
Definition over_half (df : DataFrame) (i : Z) : bool :=
  (len df <? 2 * currency_count df i)%Z.

(** The loop of lines 107-113 over [i = n-1, ..., 0]. *)
Fixpoint scan_columns (df : DataFrame) (n : nat) : Z :=
  match n with
  | 0 => (-1)%Z
  | S i => if over_half df (Z.of_nat i) then Z.of_nat i else scan_columns df i
  end.

Definition price_col_index (df : DataFrame) : Z := scan_columns df (ncols df).

Definition desc_col_index (price_col_index : Z) : Z :=
  Z.max 0 (price_col_index - 1).

(** Lines 118-121 for one row of [df_filtered]. *)
Definition row_record (price_col_index : Z) (row : list cell) : record :=
  {| Description :=
       Py.strip (Py.replace [Py.newline] s{" "}
                   (astype_str (at_col (desc_col_index price_col_index) row)));
     Total_Price := astype_str (at_col price_col_index row) |}.

(** Lines 102-121: the frame Strategy A leaves in [output_df]. *)
Definition table_records (table_data : table) : option (list record) :=
  let df := drop_header (frame table_data) in
  let p := price_col_index df in
  if (p =? -1)%Z then None
  else
    let df_filtered := filter (fun row => currency_like (at_col p row)) (rows df) in
    Some (map (row_record p) df_filtered).

(** *** The page and the driver *)

(** What the PDF library answers for one page: the table found in a
    region under given settings, and the text. *)
Record Page := {
  extract_table : region -> table_settings -> exn + option table;
  extract_text : exn + str
}.

(** [pdfplumber.open(path).pages], or the exception [open] raises. *)
Definition Library := str -> exn + list Page.

Definition use_generic_crop (vendor : str) : bool :=
  Py.eqs vendor s{"Rinker"} || Py.eqs vendor s{"Foley"}.

Definition cropped_page (vendor : str) : region :=
  if use_generic_crop vendor then Cropped GENERIC_CROP_AREA else Whole.

(** [output_df is None or output_df.empty] *)
Definition none_or_empty (output_df : option (list record)) : bool :=
  match output_df with
  | None | Some [] => true
  | Some (_ :: _) => false
  end.

(** Lines 92-121. *)
Definition strategy_A (page : Page) (vendor : str) : M event (option (list record)) :=
  print StrategyA ;;
  emit (ExtractTable (cropped_page vendor)) ;;
  table_data <- lift (extract_table page (cropped_page vendor)
                        GENERIC_STREAM_SETTINGS) ;;
  match table_data with
  | Some t =>                       (* [table_data and len(table_data) > 1] *)
      if 1 <? length t
      then print StrategyAOk ;; ret (table_records t)
      else ret None
  | None => ret None
  end.

(** Lines 125-127. *)
Definition strategy_B (page : Page) (filename : str) (output_df : option (list record))
  : M event (option (list record)) :=
  if none_or_empty output_df
  then emit ExtractText ;;
       page_text <- lift (extract_text page) ;;
       extract_with_regex page_text filename
  else ret output_df.

(** Lines 131-141; the markdown rendering and the write are taken to
    succeed. *)
Definition final_output (output_file : str) (output_df : option (list record))
  : M event bool :=
  match output_df with
  | Some (r :: t) =>
      emit (Write output_file (r :: t)) ;;
      print (FinalSuccess (length (r :: t)) output_file) ;;
      ret true
  | _ => print BothFailed ;; ret false
  end.

Definition extract_line_items_from_pdf (lib : Library) (pdf_path : str)
  : M event bool :=
  let filename := Py.basename pdf_path in
  let vendor := get_vendor_info filename in
  let output_file := Py.replace s{".pdf"} [] filename ++ s{"_extracted.md"} in
  print (VendorStart vendor) ;;
  try_except
    (emit (Open pdf_path) ;;
     pages <- lift (lib pdf_path) ;;
     page <- lift (match pages with
                   | page :: _ => inr page
                   | [] => inl OtherError          (* IndexError *)
                   end) ;;
     output_df <- strategy_A page vendor ;;
     output_df <- strategy_B page filename output_df ;;
     final_output output_file output_df)
    (fun _ => print Unexpected ;; ret false).

End Extract.

(* ===================================================================== *)
(** ** ocr.py and batch_ocr.py *)
(* ===================================================================== *)

(** What the two OCR scripts share: the file system and the PDF and OCR
    libraries as they answer for one path, and the events of a run. *)
Module OcrWorld.
Local Open Scope eff_scope.

Record File := {
  exists_ : bool;                (* os.path.exists *)
  first_page_text : exn + str;   (* fitz.open, doc[0], page.get_text, doc.close *)
  ocr_pdf : exn + str            (* fitz.open, get_pixmap, Image.open,
                                    pytesseract.image_to_pdf_or_hocr *)
}.

Definition FileSystem := str -> File.

Inductive msg :=
| NotFound                       (* file not found *)
| Searchable                     (* already searchable / skipping OCR *)
| ReadError                      (* error reading PDF with fitz *)
| AlreadyProcessed               (* batch_ocr.py, line 36 *)
| PerformingOCR                  (* performing OCR on page 1 *)
| OcrSuccess (output_pdf_path : str)
| TesseractMissing
| OcrError.

Inductive event :=
| Print (m : msg)
| ReadFirstPage (path : str)
| RunOCR (path : str)
| Write (output_pdf_path : str) (pdf_data : str).

Definition print (m : msg) : M event unit := emit (Print m).

Definition MARKER : str := s{"_OCR_Layer.pdf"}.

(** [f"{os.path.basename(input_pdf_path).replace('.pdf', '')}_OCR_Layer.pdf"] *)
Definition output_path (input_pdf_path : str) : str :=
  Py.replace s{".pdf"} [] (Py.basename input_pdf_path) ++ MARKER.

(** The second [try] block of both scripts: render, recognise, write. *)
Definition perform_ocr (fs : FileSystem) (input_pdf_path : str)
  : M event (option str) :=
  let output_pdf_path := output_path input_pdf_path in
  try_except
    (emit (RunOCR input_pdf_path) ;;
     pdf_data <- lift (ocr_pdf (fs input_pdf_path)) ;;
     emit (Write output_pdf_path pdf_data) ;;
     print (OcrSuccess output_pdf_path) ;;
     ret (Some output_pdf_path))
    (fun e =>
       match e with
       | TesseractNotFoundError => print TesseractMissing ;; ret None
       | OtherError => print OcrError ;; ret None
       end).

End OcrWorld.

Module Ocr.
Import OcrWorld.
Local Open Scope eff_scope.

(** [convert_to_searchable_pdf] of ocr.py; [None] is Python's [None]. *)
Definition convert_to_searchable_pdf (fs : FileSystem) (input_pdf_path : str)
  : M event (option str) :=
  if negb (exists_ (fs input_pdf_path))
  then print NotFound ;; ret None
  else
    early <-
      try_except
        (emit (ReadFirstPage input_pdf_path) ;;
         text_on_page <- lift (first_page_text (fs input_pdf_path)) ;;
         if 100 <? length (Py.strip text_on_page)
         then print Searchable ;; ret (Some (Some input_pdf_path))
         else ret None)
        (fun _ => print ReadError ;; ret (Some None)) ;;
    match early with
    | Some returned => ret returned        (* a [return] inside the [try] *)
    | None =>
        print PerformingOCR ;;
        perform_ocr fs input_pdf_path
    end.

End Ocr.

Module BatchOcr.
Import OcrWorld.
Local Open Scope eff_scope.

(** [convert_to_searchable_pdf] of batch_ocr.py. *)
Definition convert_to_searchable_pdf (fs : FileSystem) (input_pdf_path : str)
  : M event (option str) :=
  let filename := Py.basename input_pdf_path in
  if negb (exists_ (fs input_pdf_path))
  then print NotFound ;; ret None
  else
    early <-
      try_except
        (emit (ReadFirstPage input_pdf_path) ;;
         text_on_page <- lift (first_page_text (fs input_pdf_path)) ;;
         if (100 <? length (Py.strip text_on_page))
            && negb (Py.contains MARKER filename)
         then print Searchable ;; ret (Some (Some input_pdf_path))
         else ret None)
        (fun _ => print ReadError ;; ret None) ;;   (* [pass]: on to OCR *)
    match early with
    | Some returned => ret returned
    | None =>
        if Py.contains MARKER filename
        then print AlreadyProcessed ;; ret None
        else
          print PerformingOCR ;;
          perform_ocr fs input_pdf_path
    end.

End BatchOcr.

(* ===================================================================== *)
(** ** What the properties are stated with *)
(* ===================================================================== *)

Module Spec.
Import Re Extract.

(** The words a pattern matches, whatever the order of the attempts. *)
Fixpoint lang (r : re) (w : str) : Prop :=
  match r with
  | Chr p => exists c, w = [c] /\ p c = true
  | Cat r1 r2 => exists w1 w2, w = w1 ++ w2 /\ lang r1 w1 /\ lang r2 w2
  | Alt r1 r2 => lang r1 w \/ lang r2 w
  | Rep r' lo hi _ =>
      exists ws, w = concat ws /\ Forall (lang r') ws /\ lo <= length ws /\
                 match hi with Some h => length ws <= h | None => True end
  | Grp _ r' => lang r' w
  | Eol => w = []
  end.

(** A pattern without capture groups. *)
Fixpoint groupless (r : re) : bool :=
  match r with
  | Chr _ | Eol => true
  | Cat r1 r2 | Alt r1 r2 => groupless r1 && groupless r2
  | Rep r' _ _ _ => groupless r'
  | Grp _ _ => false
  end.

(** The currency format [$d{1,3}(,ddd)*.dd] of an Extraction Record,
    written without the matcher. *)
Fixpoint leading_digits (s : str) : nat :=
  match s with
  | c :: s' => if Py.isdigit c then S (leading_digits s') else 0
  | [] => 0
  end.

Fixpoint thousands_then_cents (s : str) : bool :=
  match s with
  | c :: s1 =>
      if Ascii.eqb c ","
      then match s1 with
           | x :: y :: z :: s' =>
               Py.isdigit x && Py.isdigit y && Py.isdigit z && thousands_then_cents s'
           | _ => false
           end
      else if Ascii.eqb c "."
      then match s1 with
           | [x; y] => Py.isdigit x && Py.isdigit y
           | _ => false
           end
      else false
  | [] => false
  end.

Definition is_price (s : str) : bool :=
  match s with
  | c :: t =>
      Ascii.eqb c "$" &&
      (1 <=? leading_digits t) && (leading_digits t <=? 3) &&
      thousands_then_cents (skipn (leading_digits t) t)
  | [] => false
  end.

(** A non-null cell that holds a digit or a ['$']. *)
Definition has_currency_char (c : cell) : bool :=
  match c with
  | Some s => existsb (fun ch => Py.isdigit ch || Ascii.eqb ch "$") s
  | None => false
  end.

(** More than half of the rows of [df] hold such a cell in column [i]. *)
Definition majority_of_rows (df : DataFrame) (i : nat) : bool :=
  length (rows df) <?
  2 * length (filter (fun row => has_currency_char (nth i row None)) (rows df)).

(** The column test in the words of the specification: more than half of
    the non-null cells of column [i] hold such a cell. *)
Definition non_null (c : cell) : bool :=
  match c with Some _ => true | None => false end.

Definition majority_of_non_null (df : DataFrame) (i : nat) : bool :=
  length (filter (fun row => non_null (nth i row None)) (rows df)) <?
  2 * length (filter (fun row => has_currency_char (nth i row None)) (rows df)).

Fixpoint rightmost (test : nat -> bool) (n : nat) : option nat :=
  match n with
  | 0 => None
  | S i => if test i then Some i else rightmost test i
  end.

Definition price_column_of_spec (df : DataFrame) : option nat :=
  rightmost (majority_of_non_null df) (ncols df).

(** The leading token of a file name: what precedes the first ['_'] or
    ['.']. *)
Fixpoint leading_token (s : str) : str :=
  match s with
  | c :: s' =>
      if Ascii.eqb c "_" || Ascii.eqb c "." then [] else c :: leading_token s'
  | [] => []
  end.

(** Strategy B in the words of the specification: every non-blank line,
    top to bottom, is matched on its own and gives at most one record. *)
Definition line_record (line : str) : list record :=
  match findall PRICE_REGEX (Py.strip line) with
  | g :: _ => regex_data [(g 1, g 2)]
  | [] => []
  end.

Definition records_per_line (page_text : str) : list record :=
  flat_map line_record (filter nonblank (Py.split Py.newline page_text)).

(** The records a run of the extractor wrote to its report. *)
Definition emitted (run : M event bool) (r : record) : Prop :=
  exists output_file rows, In (Write output_file rows) (events run) /\ In r rows.

End Spec.

(* ===================================================================== *)
(** ** Concrete pages, tables and files *)
(* ===================================================================== *)

Module Examples.
Import Extract OcrWorld.

(** A page whose answers do not depend on the region. *)
Definition page_of (t : option table) (text : str) : Page :=
  {| extract_table := fun _ _ => inr t; extract_text := inr text |}.

Definition one_page (p : Page) : Library := fun _ => inr [p].

(** Header, then one row: a quantity and a two-letter item. *)
Definition small_table : table :=
  [ [Some s{"Item"}; Some s{"Qty"}];
    [Some s{"ab"}; Some s{"7"}] ].

(** Header, then three rows; only the first has a total, the other two
    cells are null. *)
Definition sparse_table : table :=
  [ [Some s{"Total"}];
    [Some s{"$5.00"}];
    [None];
    [None] ].

(** Header, then three rows whose only currency-like column is the
    first one. *)
Definition price_first_table : table :=
  [ [Some s{"Total"}; Some s{"Item"}];
    [Some s{"$5.00"}; Some s{"Gravel"}];
    [Some s{"$7.50"}; Some s{"Sand"}];
    [Some s{"n/a"}; Some s{"Note"}] ].

Definition two_priced_lines : str :=
  s{"Concrete Pump Rental $425.00"} ++ [Py.newline] ++
  s{"Delivery Charge Flat $75.00"}.

Definition long_text : str := repeat "a"%char 101.

(** An existing file whose first page cannot be read, with a working
    OCR engine. *)
Definition unreadable : FileSystem := fun _ =>
  {| exists_ := true; first_page_text := inl OtherError; ocr_pdf := inr s{"%PDF"} |}.

(** An existing file with little text on its first page, with a working
    OCR engine. *)
Definition scanned : FileSystem := fun _ =>
  {| exists_ := true; first_page_text := inr s{"page 1"}; ocr_pdf := inr s{"%PDF"} |}.

(** An existing file with plenty of text on its first page. *)
Definition born_digital : FileSystem := fun _ =>
  {| exists_ := true; first_page_text := inr long_text; ocr_pdf := inr s{"%PDF"} |}.

End Examples.

(* ===================================================================== *)
(** ** The command lines of the three scripts *)
(* ===================================================================== *)

(** The [__main__] block of extract.py.  [argv] is [sys.argv], program name
    included; [glob_pdf] is what [glob.glob("*.pdf")] answers.  The value of
    a run is the exit status: [1] after [sys.exit(1)], [0] when the script
    runs to its end. *)
Module ExtractMain.
Import Extract.
Local Open Scope eff_scope.

Inductive banner :=
| SingleFileMode                       (* line 151 *)
| BatchMode                            (* line 158 *)
| NoPdfFound                           (* line 159 *)
| BatchFound (n : nat)                 (* line 162 *)
| Processing (name : str)              (* line 166 *)
| BatchComplete                        (* line 170 *)
| Total (processed_count n : nat).     (* line 171 *)

Inductive event :=
| Say (b : banner)
| Of (e : Extract.event).              (* an event of the extractor *)

Definition say (b : banner) : M event unit := emit (Say b).

(** A call of the extractor from the command line. *)
Definition call {A} (m : M Extract.event A) : M event A :=
  (map Of (events m), value m).

(** The loop of lines 165-168. *)
Fixpoint for_each (lib : Library) (pdf_files : list str) (processed_count : nat)
  : M event nat :=
  match pdf_files with
  | [] => ret processed_count
  | pdf_path :: rest =>
      say (Processing (Py.basename pdf_path)) ;;
      ok <- call (extract_line_items_from_pdf lib pdf_path) ;;
      for_each lib rest (if ok then S processed_count else processed_count)
  end.

Definition main (argv glob_pdf : list str) (lib : Library) : M event Z :=
  if 1 <? length argv
  then
    let pdf_path := nth 1 argv [] in
    say SingleFileMode ;;
    _ <- call (extract_line_items_from_pdf lib pdf_path) ;;
    ret 0%Z
  else
    let pdf_files := glob_pdf in
    match pdf_files with
    | [] => say BatchMode ;; say NoPdfFound ;; ret 1%Z
    | _ :: _ =>
        say (BatchFound (length pdf_files)) ;;
        processed_count <- for_each lib pdf_files 0 ;;
        say BatchComplete ;;
        say (Total processed_count (length pdf_files)) ;;
        ret 0%Z
    end.

End ExtractMain.

(** The [__main__] blocks of ocr.py and batch_ocr.py. *)
Module OcrMain.
Import OcrWorld.
Local Open Scope eff_scope.

Inductive banner :=
| Usage                                (* ocr.py, line 70 *)
| SingleFileMode                       (* batch_ocr.py, line 77 *)
| BatchMode                            (* line 85 *)
| NoSourceFound                        (* line 86 *)
| BatchFound (n : nat)                 (* line 89 *)
| Processing (name : str)              (* line 93 *)
| BatchComplete                        (* line 97 *)
| Total (processed_count n : nat).     (* line 98 *)

Inductive event :=
| Say (b : banner)
| Of (e : OcrWorld.event).             (* an event of the converter *)

Definition say (b : banner) : M event unit := emit (Say b).

Definition call {A} (m : M OcrWorld.event A) : M event A :=
  (map Of (events m), value m).

(** Truth value of what [convert_to_searchable_pdf] returns: [None] and the
    empty string are false. *)
Definition truthy (returned : option str) : bool :=
  match returned with
  | Some (_ :: _) => true
  | Some [] | None => false
  end.

(** ocr.py, lines 68-74. *)
Definition ocr_main (argv : list str) (fs : FileSystem) : M event Z :=
  if length argv <? 2
  then say Usage ;; ret 1%Z
  else
    let pdf_path := nth 1 argv [] in
    _ <- call (Ocr.convert_to_searchable_pdf fs pdf_path) ;;
    ret 0%Z.

(** batch_ocr.py, the loop of lines 92-95. *)
Fixpoint for_each (fs : FileSystem) (pdf_files : list str) (processed_count : nat)
  : M event nat :=
  match pdf_files with
  | [] => ret processed_count
  | pdf_path :: rest =>
      say (Processing (Py.basename pdf_path)) ;;
      returned <- call (BatchOcr.convert_to_searchable_pdf fs pdf_path) ;;
      for_each fs rest
        (if truthy returned then S processed_count else processed_count)
  end.

(** batch_ocr.py, line 82. *)
Definition candidates (glob_pdf : list str) : list str :=
  filter (fun f => negb (Py.contains s{"_OCR_Layer"} f)) glob_pdf.

(** batch_ocr.py, lines 73-98. *)
Definition batch_main (argv glob_pdf : list str) (fs : FileSystem) : M event Z :=
  if 1 <? length argv
  then
    let pdf_path := nth 1 argv [] in
    say SingleFileMode ;;
    _ <- call (BatchOcr.convert_to_searchable_pdf fs pdf_path) ;;
    ret 0%Z
  else
    let pdf_files := candidates glob_pdf in
    match pdf_files with
    | [] => say BatchMode ;; say NoSourceFound ;; ret 1%Z
    | _ :: _ =>
        say (BatchFound (length pdf_files)) ;;
        processed_count <- for_each fs pdf_files 0 ;;
        say BatchComplete ;;
        say (Total processed_count (length pdf_files)) ;;
        ret 0%Z
    end.

End OcrMain.

(* ===================================================================== *)
(** ** What a trace holds *)
(* ===================================================================== *)

Module Trace.

(** The reports written during a run of the extractor, in order. *)
Definition reports (l : list Extract.event) : list (str * list Extract.record) :=
  flat_map (fun e => match e with
                     | Extract.Write f rows => [(f, rows)]
                     | _ => []
                     end) l.

(** The PDF files written during a run of an OCR script, in order. *)
Definition ocr_files (l : list OcrWorld.event) : list (str * str) :=
  flat_map (fun e => match e with
                     | OcrWorld.Write f data => [(f, data)]
                     | _ => []
                     end) l.

(** The events of the extractor inside a run of its command line. *)
Definition inner (l : list ExtractMain.event) : list Extract.event :=
  flat_map (fun e => match e with
                     | ExtractMain.Of e' => [e']
                     | ExtractMain.Say _ => []
                     end) l.

(** The three ways in which a call of a converter on [path] can end: the
    input path is returned and nothing was recognised or written; the
    output path is returned and the engine's PDF was written there; or
    [None] is returned and nothing was written. *)
Definition ocr_outcome (fs : OcrWorld.FileSystem) (path : str)
    (run : M OcrWorld.event (option str)) : Prop :=
  (value run = inr (Some path) /\ ocr_files (events run) = [] /\
   ~ In (OcrWorld.RunOCR path) (events run)) \/
  (exists pdf_data, OcrWorld.ocr_pdf (fs path) = inr pdf_data /\
     value run = inr (Some (OcrWorld.output_path path)) /\
     ocr_files (events run) = [(OcrWorld.output_path path, pdf_data)]) \/
  (value run = inr None /\ ocr_files (events run) = []).

(** The banners of a run of the extractor's command line. *)
Definition said (l : list ExtractMain.event) : list ExtractMain.banner :=
  flat_map (fun e => match e with
                     | ExtractMain.Say b => [b]
                     | ExtractMain.Of _ => []
                     end) l.

End Trace.

(* ===================================================================== *)
(** ** The shape of a text *)
(* ===================================================================== *)

Module Shape.

(** No white space at either end. *)
Definition trimmed (s : str) : bool :=
  match s with
  | [] => true
  | c :: _ => negb (Py.isspace c) && negb (Py.isspace (last s c))
  end.

(** No line break. *)
Definition one_line (s : str) : bool :=
  forallb (fun c => negb (Py.is_newline c)) s.

(** No occurrence of the character [a]. *)
Definition free_of (a : ascii) (s : str) : bool :=
  forallb (fun c => negb (Ascii.eqb c a)) s.

End Shape.

(* ===================================================================== *)
(** ** The matcher *)
(* ===================================================================== *)

Module ReFacts.
Import Re Spec.

Lemma in_cat r1 r2 s g m :
  In m (run (Cat r1 r2) s g) ->
  exists a b, In a (run r1 s g) /\ In b (run r2 (rest a) (caps a)) /\
              m = after (consumed a) b.
Proof.
  simpl. intros H. apply in_flat_map in H as (a & Ha & H).
  apply in_map_iff in H as (b & <- & Hb). eauto.
Qed.

Lemma in_grp n r s g m :
  In m (run (Grp n r) s g) ->
  exists a, In a (run r s g) /\ consumed m = consumed a /\ rest m = rest a /\
            caps m = set_group n (consumed a) (caps a).
Proof.
  simpl. intros H. apply in_map_iff in H as (a & <- & Ha). eauto.
Qed.

(** One round of a repetition: it stops here, or the body matches a
    non-empty word and the repetition goes on with one round less. *)
Lemma in_loop body greedy fuel lo hi s g m :
  In m (loop body greedy (S fuel) lo hi s g) ->
  (lo = 0 /\ m = mk [] s g) \/
  (exhausted hi = false /\
   exists a m', In a (body s g) /\ consumed a <> [] /\
     In m' (loop body greedy fuel (pred lo) (option_map pred hi) (rest a) (caps a)) /\
     m = after (consumed a) m').
Proof.
  cbn [loop]. intros H.
  assert (In m (if lo =? 0 then [mk [] s g] else []) ->
          lo = 0 /\ m = mk [] s g) as Hstop.
  { destruct (Nat.eqb_spec lo 0); simpl; [intros [<- | []]; auto | tauto]. }
  assert (forall l, In m (if exhausted hi then [] else l) ->
                    exhausted hi = false /\ In m l) as Hmore.
  { destruct (exhausted hi); simpl; [tauto | auto]. }
  destruct greedy; apply in_app_or in H as [H | H]; auto; right;
    apply Hmore in H as (Hhi & H); split; auto;
    apply in_flat_map in H as (a & Ha & H);
    (destruct (consumed a) eqn:E; [destruct H |]);
    apply in_map_iff in H as (m' & <- & Hm');
    exists a, m'; rewrite E; repeat split; auto; discriminate.
Qed.

Section Body.
Variable body : str -> groups -> list result.
Variable L : str -> Prop.
Hypothesis body_sound : forall s g a,
  In a (body s g) -> L (consumed a) /\ s = consumed a ++ rest a.

Lemma loop_sound greedy fuel : forall lo hi s g m,
  In m (loop body greedy fuel lo hi s g) ->
  s = consumed m ++ rest m /\
  exists ws, consumed m = concat ws /\ Forall L ws /\ lo <= length ws /\
             match hi with Some h => length ws <= h | None => True end.
Proof.
  induction fuel as [| fuel IH]; intros lo hi s g m H; [destruct H |].
  apply in_loop in H as [(-> & ->) | (Hhi & a & m' & Ha & _ & Hm' & ->)].
  - split; [reflexivity |]. exists []. simpl. repeat split; auto.
    destruct hi; [lia | exact I].
  - apply body_sound in Ha as (HL & Hs).
    apply IH in Hm' as (Hs' & ws & Hc & Hws & Hlo & Hh).
    split; [simpl; rewrite <- app_assoc, <- Hs'; exact Hs |].
    exists (consumed a :: ws). simpl. rewrite Hc. repeat split; auto.
    + lia.
    + destruct hi as [[| h] |]; simpl in *; auto; [discriminate | lia].
Qed.
End Body.

(** Whatever the matcher reports is a word of the pattern, and a prefix of
    the input. *)
Theorem run_sound r : forall s g m,
  In m (run r s g) -> lang r (consumed m) /\ s = consumed m ++ rest m.
Proof.
  induction r as [p | r1 IH1 r2 IH2 | r1 IH1 r2 IH2 | r IH lo hi greedy | n r IH |];
    intros s g m H.
  - simpl in H. destruct s as [| c s']; [destruct H |].
    destruct (p c) eqn:E; [| destruct H]. destruct H as [<- | []].
    simpl. eauto.
  - apply in_cat in H as (a & b & Ha & Hb & ->).
    apply IH1 in Ha as (La & Sa). apply IH2 in Hb as (Lb & Sb).
    simpl. split; [eauto |]. rewrite <- app_assoc, <- Sb. exact Sa.
  - simpl in H. apply in_app_or in H as [H | H].
    + apply IH1 in H as (? & ?). simpl. auto.
    + apply IH2 in H as (? & ?). simpl. auto.
  - cbn [run] in H.
    apply (loop_sound (run r) (lang r) IH) in H as (Hs & ws & ? & ? & ? & ?).
    split; [| exact Hs]. simpl. eauto.
  - apply in_grp in H as (a & Ha & Hc & Hr & _).
    apply IH in Ha as (? & ?). rewrite Hc, Hr. auto.
  - simpl in H. destruct s as [| c s'].
    + destruct H as [<- | []]. simpl. auto.
    + destruct (Py.is_newline c); [| destruct H].
      destruct H as [<- | []]. simpl. auto.
Qed.

(** The fuel of a repetition is never used up: any amount beyond the
    length of the input gives the same matches. *)
Lemma loop_fuel body greedy
  (body_prefix : forall s g a, In a (body s g) -> s = consumed a ++ rest a) :
  forall f1 f2 lo hi s g,
    length s < f1 -> length s < f2 ->
    loop body greedy f1 lo hi s g = loop body greedy f2 lo hi s g.
Proof.
  induction f1 as [| f1 IH]; intros f2 lo hi s g H1 H2; [lia |].
  destruct f2 as [| f2]; [lia |]. cbn [loop].
  assert (forall l1 l2 : list result, l1 = l2 ->
            (if greedy then l1 ++ (if lo =? 0 then [mk [] s g] else [])
             else (if lo =? 0 then [mk [] s g] else []) ++ l1) =
            (if greedy then l2 ++ (if lo =? 0 then [mk [] s g] else [])
             else (if lo =? 0 then [mk [] s g] else []) ++ l2)) as K
    by (intros ? ? ->; reflexivity).
  apply K. destruct (exhausted hi); [reflexivity |].
  rewrite !flat_map_concat_map. f_equal.
  apply map_ext_in. intros a Ha. apply body_prefix in Ha.
  destruct (consumed a) as [| c w] eqn:E; [reflexivity |].
  f_equal. apply IH; rewrite Ha in *; simpl in *; rewrite length_app in *; lia.
Qed.

Section Groupless.
Variable body : str -> groups -> list result.
Hypothesis body_keeps : forall s g a, In a (body s g) -> caps a = g.

Lemma loop_keeps greedy fuel : forall lo hi s g m,
  In m (loop body greedy fuel lo hi s g) -> caps m = g.
Proof.
  induction fuel as [| fuel IH]; intros lo hi s g m H; [destruct H |].
  apply in_loop in H as [(_ & ->) | (_ & a & m' & Ha & _ & Hm' & ->)];
    [reflexivity |].
  apply IH in Hm'. apply body_keeps in Ha. simpl. congruence.
Qed.
End Groupless.

(** A pattern without groups leaves the captures as they were. *)
Lemma run_groupless r : groupless r = true ->
  forall s g m, In m (run r s g) -> caps m = g.
Proof.
  induction r as [p | r1 IH1 r2 IH2 | r1 IH1 r2 IH2 | r IH lo hi greedy | n r IH |];
    cbn [run groupless]; intros G s g m H; try discriminate.
  - destruct s as [| c s']; [destruct H |].
    destruct (p c); [| destruct H]. destruct H as [<- | []]. reflexivity.
  - apply andb_true_iff in G as (G1 & G2).
    apply in_flat_map in H as (a & Ha & H).
    apply in_map_iff in H as (b & <- & Hb).
    apply (IH1 G1) in Ha. apply (IH2 G2) in Hb. simpl. congruence.
  - apply andb_true_iff in G as (G1 & G2).
    apply in_app_or in H as [H | H]; eauto.
  - eapply loop_keeps; [| exact H]. intros; eapply IH; eauto.
  - destruct s as [| c s'].
    + destruct H as [<- | []]. reflexivity.
    + destruct (Py.is_newline c); [| destruct H].
      destruct H as [<- | []]. reflexivity.
Qed.

Lemma match_here_in r s m : match_here r s = Some m -> In m (run r s no_groups).
Proof.
  unfold match_here. destruct (run r s no_groups); [discriminate |].
  intros [= ->]. left. reflexivity.
Qed.

(** Every tuple of [findall] is the capture of a match at some position. *)
Lemma findall_from_in r g : forall s skip,
  In g (findall_from r skip s) ->
  exists s' m, match_here r s' = Some m /\ g = caps m.
Proof.
  induction s as [| c s IH]; intros skip H.
  - destruct skip; simpl in H; [| destruct H].
    destruct (match_here r []) eqn:E; [| destruct H].
    destruct H as [<- | []]. eauto.
  - destruct skip; simpl in H; [| eauto].
    destruct (match_here r (c :: s)) eqn:E; [| eauto].
    destruct H as [<- | H]; eauto.
Qed.

End ReFacts.

(* ===================================================================== *)
(** ** Strategy B: what the price group of [PRICE_REGEX] holds *)
(* ===================================================================== *)

Module PriceFacts.
Import Re Spec Extract ReFacts.

Lemma lang_lit a w : lang (lit a) w -> w = [a].
Proof.
  intros (c & -> & E). apply Ascii.eqb_eq in E. subst. reflexivity.
Qed.

(** Between [lo] and [hi] digits. *)
Lemma lang_digits lo hi greedy w :
  lang (Rep digit lo (Some hi) greedy) w ->
  Forall (fun c => Py.isdigit c = true) w /\ lo <= length w <= hi.
Proof.
  intros (ws & -> & Hws & Hlo & Hhi).
  assert (Forall (fun c => Py.isdigit c = true) (concat ws) /\
          length (concat ws) = length ws) as (? & E).
  { clear Hlo Hhi. induction Hws as [| x ws (c & -> & Hc) _ (IH1 & IH2)]; simpl.
    - auto.
    - split; [constructor; assumption | congruence]. }
  split; [assumption | lia].
Qed.

Lemma leading_digits_app d t :
  Forall (fun c => Py.isdigit c = true) d ->
  leading_digits t = 0 ->
  leading_digits (d ++ t) = length d.
Proof.
  induction 1 as [| c d Hc _ IH]; intros Ht; simpl; [exact Ht |].
  rewrite Hc, IH; auto.
Qed.

Lemma skipn_length_app (d t : str) : skipn (length d) (d ++ t) = t.
Proof. induction d; simpl; auto. Qed.

Lemma three_digits w :
  Forall (fun c => Py.isdigit c = true) w -> 3 <= length w <= 3 ->
  exists x y z, w = [x; y; z] /\
    Py.isdigit x = true /\ Py.isdigit y = true /\ Py.isdigit z = true.
Proof.
  intros F H. destruct w as [| x [| y [| z [| ? ?]]]]; simpl in H; try lia.
  inversion F as [| ? ? Hx F1]; inversion F1 as [| ? ? Hy F2];
    inversion F2 as [| ? ? Hz _]; subst. eauto 7.
Qed.

Lemma two_digits w :
  Forall (fun c => Py.isdigit c = true) w -> 2 <= length w <= 2 ->
  exists x y, w = [x; y] /\ Py.isdigit x = true /\ Py.isdigit y = true.
Proof.
  intros F H. destruct w as [| x [| y [| ? ?]]]; simpl in H; try lia.
  inversion F as [| ? ? Hx F1]; inversion F1 as [| ? ? Hy _]; subst. eauto.
Qed.

(** Groups of [,ddd], then [.dd]. *)
Lemma thousands_then_cents_ok ws tail :
  Forall (lang (Cat (lit ",") (Rep digit 3 (Some 3) true))) ws ->
  thousands_then_cents tail = true ->
  thousands_then_cents (concat ws ++ tail) = true.
Proof.
  induction 1 as [| w ws (w1 & w2 & -> & L1 & L2) _ IH]; intros Ht; simpl;
    [exact Ht |].
  apply lang_lit in L1 as ->.
  apply lang_digits in L2 as (F & B).
  destruct (three_digits F B) as (x & y & z & -> & Hx & Hy & Hz).
  simpl. rewrite Hx, Hy, Hz. simpl. auto.
Qed.

Lemma tail_starts_without_digit ws t :
  Forall (lang (Cat (lit ",") (Rep digit 3 (Some 3) true))) ws ->
  leading_digits (concat ws ++ "."%char :: t) = 0.
Proof.
  intros [| w ws' (w1 & w2 & -> & L1 & _) _]; simpl; [reflexivity |].
  apply lang_lit in L1 as ->. reflexivity.
Qed.

(** The words of the price group are prices. *)
Lemma price_numbers_format w :
  lang PRICE_NUMBERS w -> is_price ("$"%char :: w) = true.
Proof.
  intros (d & w' & -> & Ld & ths & w'' & -> & Lt & pt & cents & -> & Lp & Lc).
  apply lang_digits in Ld as (Fd & Bd).
  destruct Lt as (ws & -> & Fws & _).
  apply lang_lit in Lp as ->.
  apply lang_digits in Lc as (Fc & Bc).
  destruct (two_digits Fc Bc) as (x & y & -> & Hx & Hy).
  unfold is_price. cbn [Ascii.eqb app].
  rewrite (leading_digits_app _ Fd (tail_starts_without_digit _ Fws)).
  rewrite skipn_length_app.
  rewrite (thousands_then_cents_ok _ Fws)
    by (simpl; rewrite Hx, Hy; reflexivity).
  destruct Bd as (B1 & B3).
  apply Nat.leb_le in B1. apply Nat.leb_le in B3. rewrite B1, B3. reflexivity.
Qed.

(** Group 2 of any match of [PRICE_REGEX] is a word of [PRICE_NUMBERS]. *)
Lemma price_group s g m :
  In m (run PRICE_REGEX s g) -> lang PRICE_NUMBERS (caps m 2).
Proof.
  unfold PRICE_REGEX. intros H.
  apply in_cat in H as (a1 & b1 & _ & H & ->).
  apply in_cat in H as (a2 & b2 & _ & H & ->).
  apply in_cat in H as (a3 & b3 & _ & H & ->).
  apply in_cat in H as (a4 & b4 & _ & H & ->).
  apply in_cat in H as (a5 & b5 & Hg & H & ->).
  apply run_groupless in H; [| reflexivity].
  apply in_grp in Hg as (a & Ha & _ & _ & Hc).
  apply run_sound in Ha as (La & _).
  simpl. rewrite H, Hc. unfold set_group. simpl. exact La.
Qed.

Lemma regex_matches_price page_text description_raw price_numbers :
  In (description_raw, price_numbers) (regex_matches page_text) ->
  is_price ("$"%char :: price_numbers) = true.
Proof.
  unfold regex_matches, findall. intros H.
  apply in_map_iff in H as (g & [= _ <-] & H).
  apply findall_from_in in H as (s' & m & Hm & ->).
  apply price_numbers_format. eapply price_group, match_here_in, Hm.
Qed.

Lemma regex_data_in matches r :
  In r (regex_data matches) ->
  exists description_raw price_numbers,
    In (description_raw, price_numbers) matches /\
    r = {| Description := clean_description description_raw;
           Total_Price := "$"%char :: price_numbers |} /\
    5 < length (clean_description description_raw).
Proof.
  unfold regex_data. intros H.
  apply in_flat_map in H as ((d & p) & Hm & H).
  destruct (Nat.ltb_spec 5 (length (clean_description d))) as [L | L];
    [| destruct H].
  destruct H as [<- | []]. eauto.
Qed.

End PriceFacts.

(* ===================================================================== *)
(** ** Events and values of composed computations *)
(* ===================================================================== *)

Module EffFacts.

Section Laws.
Variables E A B : Type.

Lemma events_bind (m : M E A) (k : A -> M E B) :
  events (bind m k) =
  events m ++ match value m with inr a => events (k a) | inl _ => [] end.
Proof.
  destruct m as [l [x | a]]; simpl.
  - rewrite app_nil_r. reflexivity.
  - destruct (k a). reflexivity.
Qed.

Lemma value_bind (m : M E A) (k : A -> M E B) :
  value (bind m k) =
  match value m with inr a => value (k a) | inl x => inl x end.
Proof.
  destruct m as [l [x | a]]; simpl; [reflexivity |].
  destruct (k a). reflexivity.
Qed.

Lemma events_try (m : M E A) (h : exn -> M E A) :
  events (try_except m h) =
  events m ++ match value m with inl x => events (h x) | inr _ => [] end.
Proof.
  destruct m as [l [x | a]]; simpl.
  - destruct (h x). reflexivity.
  - rewrite app_nil_r. reflexivity.
Qed.

Lemma value_try (m : M E A) (h : exn -> M E A) :
  value (try_except m h) =
  match value m with inl x => value (h x) | inr a => inr a end.
Proof.
  destruct m as [l [x | a]]; simpl; [| reflexivity].
  destruct (h x). reflexivity.
Qed.
End Laws.

Lemma run_eq E A (m : M E A) : m = (events m, value m).
Proof. destruct m. reflexivity. Qed.

End EffFacts.

(** Unfolds a composed computation into its events and its value. *)
Ltac eff_step :=
  rewrite ?EffFacts.events_bind, ?EffFacts.value_bind,
          ?EffFacts.events_try, ?EffFacts.value_try;
  cbn [events value emit ret lift fst snd app].

Ltac eff := repeat progress eff_step.

(* ===================================================================== *)
(** ** extract.py: the two strategies and the driver *)
(* ===================================================================== *)

Module ExtractFacts.
Import Re Spec Extract ReFacts PriceFacts.

(** *** Strategy B *)

Lemma regex_value page_text filename :
  value (extract_with_regex page_text filename) =
  inr match regex_data (regex_matches page_text) with
      | [] => None
      | r :: t => Some (r :: t)
      end.
Proof.
  unfold extract_with_regex, print. eff.
  destruct (regex_matches page_text) as [| m ms] eqn:E; [reflexivity |].
  generalize (regex_data (m :: ms)). intros [| r t]; eff; reflexivity.
Qed.

Lemma regex_events page_text filename e :
  In e (events (extract_with_regex page_text filename)) ->
  e = Print StrategyB \/ exists n, e = Print (RegexSuccess n).
Proof.
  unfold extract_with_regex, print. eff.
  destruct (regex_matches page_text) as [| m ms]; eff; cbn [In].
  - intros [<- | []]. auto.
  - generalize (regex_data (m :: ms)). intros [| r t]; eff; cbn [In].
    + intros [<- | []]. auto.
    + intros [<- | [<- | []]]; eauto.
Qed.

(** *** Strategy A *)

Lemma strategy_A_value page vendor :
  value (strategy_A page vendor) =
  match extract_table page (cropped_page vendor) GENERIC_STREAM_SETTINGS with
  | inl e => inl e
  | inr (Some t) => if 1 <? length t then inr (table_records t) else inr None
  | inr None => inr None
  end.
Proof.
  unfold strategy_A, print. eff.
  destruct (extract_table page (cropped_page vendor) GENERIC_STREAM_SETTINGS) as [e | [t |]];
    try reflexivity.
  destruct (1 <? length t); eff; reflexivity.
Qed.

Lemma strategy_A_events page vendor e :
  In e (events (strategy_A page vendor)) ->
  e = Print StrategyA \/ e = ExtractTable (cropped_page vendor) \/
  e = Print StrategyAOk.
Proof.
  unfold strategy_A, print. eff.
  destruct (extract_table page (cropped_page vendor) GENERIC_STREAM_SETTINGS) as [x | [t |]];
    eff; cbn [In];
    try (intros [<- | [<- | []]]; auto).
  destruct (1 <? length t); eff; cbn [In].
  - intros [<- | [<- | [<- | []]]]; auto.
  - intros [<- | [<- | []]]; auto.
Qed.

(** Strategy A never leaves an empty frame: the rows it keeps are more
    than half of the rows of the table. *)
Lemma scan_columns_found df n :
  scan_columns df n <> (-1)%Z ->
  over_half df (scan_columns df n) = true /\
  (0 <= scan_columns df n < Z.of_nat n)%Z.
Proof.
  induction n as [| i IH]; simpl; [congruence |].
  destruct (over_half df (Z.of_nat i)) eqn:E.
  - intros _. split; [exact E | lia].
  - intros H. apply IH in H as (? & ?). split; [assumption | lia].
Qed.

Lemma table_records_some table_data rows :
  table_records table_data = Some rows ->
  let df := drop_header (frame table_data) in
  price_col_index df <> (-1)%Z /\
  rows = map (row_record (price_col_index df))
           (filter (fun row => currency_like (at_col (price_col_index df) row))
              (Extract.rows df)).
Proof.
  unfold table_records. cbv zeta.
  destruct (Z.eqb_spec (price_col_index (drop_header (frame table_data))) (-1));
    [discriminate |].
  intros [= <-]. auto.
Qed.

Lemma table_records_nonempty table_data : table_records table_data <> Some [].
Proof.
  intros H. apply table_records_some in H as (Hp & Hrows).
  cbv zeta in *. set (df := drop_header (frame table_data)) in *.
  apply scan_columns_found in Hp as (Hhalf & _).
  fold (price_col_index df) in Hhalf.
  unfold over_half, currency_count, len in Hhalf.
  symmetry in Hrows. apply map_eq_nil in Hrows. rewrite Hrows in Hhalf.
  simpl in Hhalf. apply Z.ltb_lt in Hhalf. lia.
Qed.

(** *** The driver *)

Section Driver.
Variable lib : Library.
Variable pdf_path : str.

Let filename := Py.basename pdf_path.
Let vendor := get_vendor_info filename.
Let output_file := Py.replace s{".pdf"} [] filename ++ s{"_extracted.md"}.
Let run := extract_line_items_from_pdf lib pdf_path.

Variables (page : Page) (others : list Page).
Hypothesis opened : lib pdf_path = inr (page :: others).

(** Strategy A has answered with a frame of rows: these are written and
    Strategy B is not consulted. *)
Lemma run_A r t :
  value (strategy_A page vendor) = inr (Some (r :: t)) ->
  run = ([Print (VendorStart vendor); Open pdf_path]
           ++ events (strategy_A page vendor)
           ++ [Write output_file (r :: t);
               Print (FinalSuccess (length (r :: t)) output_file)],
         inr true).
Proof.
  intros HA. rewrite (EffFacts.run_eq run).
  unfold run, extract_line_items_from_pdf, print.
  fold filename. fold vendor. fold output_file. eff.
  rewrite opened. eff. rewrite HA. eff.
  unfold strategy_B, final_output, print. cbn [none_or_empty]. eff.
  rewrite app_nil_r. reflexivity.
Qed.

(** Strategy A has answered with nothing: Strategy B decides alone. *)
Lemma run_B A page_text :
  value (strategy_A page vendor) = inr A ->
  none_or_empty A = true ->
  extract_text page = inr page_text ->
  run = ([Print (VendorStart vendor); Open pdf_path]
           ++ events (strategy_A page vendor)
           ++ ExtractText :: events (extract_with_regex page_text filename)
           ++ match regex_data (regex_matches page_text) with
              | [] => [Print BothFailed]
              | r :: t => [Write output_file (r :: t);
                           Print (FinalSuccess (length (r :: t)) output_file)]
              end,
         inr match regex_data (regex_matches page_text) with
             | [] => false
             | _ :: _ => true
             end).
Proof.
  intros HA Hempty Htext. rewrite (EffFacts.run_eq run).
  unfold run, extract_line_items_from_pdf, print.
  fold filename. fold vendor. fold output_file. eff.
  rewrite opened. eff. rewrite HA. eff.
  unfold strategy_B. rewrite Hempty. eff. rewrite Htext. eff.
  rewrite !regex_value.
  destruct (regex_data (regex_matches page_text));
    unfold final_output, print; eff; rewrite ?app_nil_r; reflexivity.
Qed.

(** Strategy A has answered with nothing and the text cannot be read. *)
Lemma run_text_raises A x :
  value (strategy_A page vendor) = inr A ->
  none_or_empty A = true ->
  extract_text page = inl x ->
  run = ([Print (VendorStart vendor); Open pdf_path]
           ++ events (strategy_A page vendor)
           ++ [ExtractText; Print Unexpected],
         inr false).
Proof.
  intros HA Hempty Htext. rewrite (EffFacts.run_eq run).
  unfold run, extract_line_items_from_pdf, print.
  fold filename. fold vendor. fold output_file. eff.
  rewrite opened. eff. rewrite HA. eff.
  unfold strategy_B. rewrite Hempty. eff. rewrite Htext. eff.
  rewrite <- app_assoc. reflexivity.
Qed.

(** The table extraction raises. *)
Lemma run_A_raises x :
  value (strategy_A page vendor) = inl x ->
  run = ([Print (VendorStart vendor); Open pdf_path]
           ++ events (strategy_A page vendor) ++ [Print Unexpected],
         inr false).
Proof.
  intros HA. rewrite (EffFacts.run_eq run).
  unfold run, extract_line_items_from_pdf, print.
  fold filename. fold vendor. fold output_file. eff.
  rewrite opened. eff. rewrite HA. eff.
  rewrite app_nil_r. reflexivity.
Qed.
End Driver.

(** The file cannot be opened, or has no page. *)
Lemma run_unopened (lib : Library) pdf_path :
  (forall page others, lib pdf_path <> inr (page :: others)) ->
  extract_line_items_from_pdf lib pdf_path =
  ([Print (VendorStart (get_vendor_info (Py.basename pdf_path)));
    Open pdf_path; Print Unexpected], inr false).
Proof.
  intros H. rewrite (EffFacts.run_eq (extract_line_items_from_pdf lib pdf_path)).
  unfold extract_line_items_from_pdf, print. eff.
  destruct (lib pdf_path) as [x | [| page others]]; eff;
    [reflexivity | reflexivity | destruct (H page others); reflexivity].
Qed.

Lemma strategy_A_quiet page vendor e :
  In e (events (strategy_A page vendor)) ->
  e <> ExtractText /\ e <> Print StrategyB /\
  forall f rows, e <> Write f rows.
Proof.
  intros H. apply strategy_A_events in H as [-> | [-> | ->]];
    repeat split; try discriminate; intros; discriminate.
Qed.

Lemma regex_quiet page_text filename e :
  In e (events (extract_with_regex page_text filename)) ->
  forall f rows, e <> Write f rows.
Proof.
  intros H. apply regex_events in H as [-> | (n & ->)]; intros; discriminate.
Qed.

(** Strategy A answers with a frame exactly when the table has at least two
    rows and a price column. *)
Lemma strategy_A_frame page vendor t :
  extract_table page (cropped_page vendor) GENERIC_STREAM_SETTINGS = inr (Some t) ->
  2 <= length t ->
  price_col_index (drop_header (frame t)) <> (-1)%Z ->
  exists r rows, table_records t = Some (r :: rows) /\
                 value (strategy_A page vendor) = inr (Some (r :: rows)).
Proof.
  intros Ht Hlen Hp. rewrite strategy_A_value, Ht.
  destruct (Nat.ltb_spec 1 (length t)); [| lia].
  destruct (table_records t) as [[| r rows] |] eqn:E.
  - destruct (@table_records_nonempty t E).
  - eauto.
  - unfold table_records in E.
    destruct (Z.eqb_spec (price_col_index (drop_header (frame t))) (-1));
      [contradiction | discriminate].
Qed.

Lemma strategy_A_nothing page vendor :
  value (strategy_A page vendor) = inr None ->
  extract_table page (cropped_page vendor) GENERIC_STREAM_SETTINGS = inr None \/
  exists t, extract_table page (cropped_page vendor) GENERIC_STREAM_SETTINGS = inr (Some t) /\
            (length t < 2 \/ price_col_index (drop_header (frame t)) = (-1)%Z).
Proof.
  rewrite strategy_A_value.
  destruct (extract_table page (cropped_page vendor) GENERIC_STREAM_SETTINGS) as [x | [t |]];
    [discriminate | | auto].
  intros H. right. exists t. split; [reflexivity |].
  destruct (Nat.ltb_spec 1 (length t)); [| left; lia].
  right. unfold table_records in H.
  destruct (Z.eqb_spec (price_col_index (drop_header (frame t))) (-1));
    [assumption | discriminate].
Qed.

Lemma none_or_empty_none A :
  none_or_empty A = true -> A <> Some [] -> A = None.
Proof. destruct A as [[| r t] |]; simpl; congruence. Qed.

Lemma strategy_A_never_empty page vendor :
  value (strategy_A page vendor) <> inr (Some []).
Proof.
  rewrite strategy_A_value.
  destruct (extract_table page (cropped_page vendor) GENERIC_STREAM_SETTINGS) as [x | [t |]];
    try discriminate.
  destruct (1 <? length t); [| discriminate].
  intros [= H]. exact (@table_records_nonempty t H).
Qed.

(** When Strategy B is consulted, Strategy A has left nothing, and whatever
    is written is what the regex search returned. *)
Lemma fallback_output (lib : Library) (pdf_path : str) :
  let filename := Py.basename pdf_path in
  let vendor := get_vendor_info filename in
  let run := extract_line_items_from_pdf lib pdf_path in
  In ExtractText (events run) \/ In (Print StrategyB) (events run) ->
  exists page others,
    lib pdf_path = inr (page :: others) /\
    value (strategy_A page vendor) = inr None /\
    forall f rows, In (Write f rows) (events run) ->
      exists text, extract_text page = inr text /\
        value (extract_with_regex text filename) = inr (Some rows).
Proof.
  intros filename vendor run Hran.
  destruct (lib pdf_path) as [x | [| page others]] eqn:Hl.
  1, 2: exfalso; revert Hran; unfold run;
    rewrite run_unopened by (intros ? ?; congruence);
    cbn [events fst In];
    intros [[[=] | [[=] | [[=] | []]]] | [[=] | [[=] | [[=] | []]]]].
  exists page, others. split; [reflexivity |].
  fold filename in Hran. revert Hran. unfold run.
  destruct (value (strategy_A page vendor)) as [x | A] eqn:HA.
  { rewrite (run_A_raises lib pdf_path Hl HA).
    fold filename. fold vendor. cbn [events fst app In].
    intros [[[=] | [[=] | H]] | [[=] | [[=] | H]]]; exfalso;
      apply in_app_or in H as [H | [[=] | []]];
      apply strategy_A_quiet in H as (? & ? & _); congruence. }
  destruct (none_or_empty A) eqn:EN.
  2: { destruct A as [[| r rows] |]; try discriminate.
       rewrite (run_A lib pdf_path Hl HA).
       fold filename. fold vendor. cbn [events fst app In].
       intros [[[=] | [[=] | H]] | [[=] | [[=] | H]]]; exfalso;
         apply in_app_or in H as [H | [[=] | [[=] | []]]];
         apply strategy_A_quiet in H as (? & ? & _); congruence. }
  intros _.
  assert (A = None) as ->.
  { apply none_or_empty_none; [exact EN |]. intros ->.
    exact (strategy_A_never_empty page vendor HA). }
  split; [reflexivity |].
  intros f rows'.
  destruct (extract_text page) as [x | text] eqn:ET.
  + rewrite (run_text_raises lib pdf_path Hl HA EN ET).
    fold filename. fold vendor. cbn [events fst app In].
    intros [[=] | [[=] | H]]. exfalso.
    apply in_app_or in H as [H | [[=] | [[=] | []]]].
    apply strategy_A_quiet in H as (_ & _ & H). eapply H; eauto.
  + rewrite (run_B lib pdf_path Hl HA EN ET).
    fold filename. fold vendor. cbn [events fst app In].
    intros [[=] | [[=] | H]]. exists text. split; [reflexivity |].
    rewrite regex_value.
    apply in_app_or in H as [H | [[=] | H]].
    { apply strategy_A_quiet in H as (_ & _ & H).
      destruct (H f rows' eq_refl). }
    apply in_app_or in H as [H | H].
    { destruct (regex_quiet _ _ H eq_refl). }
    destruct (regex_data (regex_matches text)) as [| r rows].
    * destruct H as [[=] | []].
    * destruct H as [[= _ <-] | [[=] | []]]. reflexivity.
Qed.

(** The driver asks for the table of one region only: the one chosen from
    the vendor. *)
Lemma extract_table_region (lib : Library) (pdf_path : str) (r : region) :
  In (ExtractTable r) (events (extract_line_items_from_pdf lib pdf_path)) ->
  r = cropped_page (get_vendor_info (Py.basename pdf_path)).
Proof.
  set (vendor := get_vendor_info (Py.basename pdf_path)).
  destruct (lib pdf_path) as [x | [| page others]] eqn:El.
  1, 2: rewrite run_unopened by (intros ? ?; congruence);
    cbn [events fst In]; intros [[=] | [[=] | [[=] | []]]].
  assert (In (ExtractTable r) (events (strategy_A page vendor)) ->
          r = cropped_page vendor) as HA.
  { intros He.
    apply strategy_A_events in He as [[=] | [[= ->] | [=]]]. reflexivity. }
  destruct (value (strategy_A page vendor)) as [x | A] eqn:EA.
  { rewrite (run_A_raises lib pdf_path El EA).
    cbn [events fst app In]. intros [[=] | [[=] | H]].
    apply in_app_or in H as [H | [[=] | []]]. exact (HA H). }
  destruct (none_or_empty A) eqn:EN.
  - destruct (extract_text page) as [x | text] eqn:ET.
    + rewrite (run_text_raises lib pdf_path El EA EN ET).
      cbn [events fst app In]. intros [[=] | [[=] | H]].
      apply in_app_or in H as [H | [[=] | [[=] | []]]]. exact (HA H).
    + rewrite (run_B lib pdf_path El EA EN ET).
      cbn [events fst app In]. intros [[=] | [[=] | H]].
      apply in_app_or in H as [H | [[=] | H]]; [exact (HA H) |].
      apply in_app_or in H as [H | H].
      * apply regex_events in H as [[=] | (n & [=])].
      * destruct (regex_data (regex_matches text));
          [destruct H as [[=] | []] | destruct H as [[=] | [[=] | []]]].
  - destruct A as [[| r0 t] |]; try discriminate.
    rewrite (run_A lib pdf_path El EA).
    cbn [events fst app In]. intros [[=] | [[=] | H]].
    apply in_app_or in H as [H | [[=] | [[=] | []]]]. exact (HA H).
Qed.

End ExtractFacts.

(* ===================================================================== *)
(** ** Strategy A: the choice of the price column *)
(* ===================================================================== *)

Module ColumnFacts.
Import Re Spec Extract.

(** The pattern of lines 110 and 118 finds a digit or a ['$']. *)
Lemma search_currency_like s :
  search CURRENCY_LIKE s =
  existsb (fun ch => Py.isdigit ch || Ascii.eqb ch "$") s.
Proof.
  induction s as [| c s IH]; [reflexivity |].
  cbn [search existsb]. rewrite <- IH.
  unfold match_here, CURRENCY_LIKE, digit, lit. cbn [run map app].
  rewrite (Ascii.eqb_sym "$" c).
  destruct (Py.isdigit c); [reflexivity |].
  destruct (Ascii.eqb c "$"); reflexivity.
Qed.

Lemma currency_like_cell c : currency_like c = has_currency_char c.
Proof.
  destruct c as [s |]; unfold currency_like; cbn [astype_str has_currency_char].
  - apply search_currency_like.
  - reflexivity.
Qed.

Lemma over_half_majority df i :
  over_half df (Z.of_nat i) = majority_of_rows df i.
Proof.
  unfold over_half, majority_of_rows, currency_count, len, at_col.
  rewrite Nat2Z.id.
  rewrite (filter_ext _ (fun row => has_currency_char (nth i row None)))
    by (intros; apply currency_like_cell).
  match goal with
  | |- (Z.of_nat ?a <? 2 * Z.of_nat ?b)%Z = _ =>
      change ((Z.of_nat a <? 2 * Z.of_nat b)%Z = (a <? 2 * b)); generalize a b
  end.
  intros a b.
  destruct (Nat.ltb_spec a (2 * b)); [apply Z.ltb_lt | apply Z.ltb_ge]; lia.
Qed.

Lemma scan_columns_rightmost df n :
  scan_columns df n =
  match rightmost (majority_of_rows df) n with
  | Some i => Z.of_nat i
  | None => (-1)%Z
  end.
Proof.
  induction n as [| i IH]; cbn [scan_columns rightmost]; [reflexivity |].
  rewrite over_half_majority. destruct (majority_of_rows df i); auto.
Qed.

Lemma rightmost_some test n i :
  rightmost test n = Some i ->
  i < n /\ test i = true /\ forall j, i < j < n -> test j = false.
Proof.
  induction n as [| k IH]; cbn [rightmost]; [discriminate |].
  destruct (test k) eqn:E.
  - intros [= <-]. repeat split; auto. intros; lia.
  - intros H. apply IH in H as (? & ? & Hj). repeat split; auto.
    intros j Hjk. destruct (Nat.eq_dec j k) as [-> | ?]; [exact E |].
    apply Hj. lia.
Qed.

Lemma rightmost_none test n :
  rightmost test n = None -> forall j, j < n -> test j = false.
Proof.
  induction n as [| k IH]; cbn [rightmost]; [intros; lia |].
  destruct (test k) eqn:E; [discriminate |].
  intros H j Hj. destruct (Nat.eq_dec j k) as [-> | ?]; [exact E |].
  apply IH; [exact H | lia].
Qed.

End ColumnFacts.

(* ===================================================================== *)
(** ** File names *)
(* ===================================================================== *)

Module NameFacts.
Import Spec Extract.

Lemma eqs_eq a : forall b, Py.eqs a b = true -> a = b.
Proof.
  induction a as [| x a IH]; intros [| y b]; simpl; try discriminate; auto.
  intros H. apply andb_true_iff in H as (E & H).
  apply Ascii.eqb_eq in E. f_equal; auto.
Qed.

Lemma eqs_refl a : Py.eqs a a = true.
Proof. induction a; simpl; [| rewrite Ascii.eqb_refl]; auto. Qed.

Lemma split_cons sep s : exists h t, Py.split sep s = h :: t.
Proof.
  destruct s as [| c s]; simpl; [eauto |].
  destruct (Ascii.eqb c sep); [eauto |].
  destruct (Py.split sep s); eauto.
Qed.

(** [split('_')[0].split('.')[0]] is the leading token. *)
Lemma first_of_splits s :
  Py.first (Py.split "." (Py.first (Py.split "_" s))) = leading_token s.
Proof.
  induction s as [| c s IH]; [reflexivity |].
  cbn [Py.split leading_token].
  destruct (Ascii.eqb c "_") eqn:E1; [reflexivity |].
  destruct (split_cons "_" s) as (h & t & Hs). rewrite Hs in *.
  cbn [Py.first hd Py.split] in *. cbn [orb].
  destruct (Ascii.eqb c ".") eqn:E2; [reflexivity |].
  destruct (split_cons "." h) as (h' & t' & Hh). rewrite Hh in *.
  unfold Py.first in *. cbn [hd] in *. congruence.
Qed.

Lemma startswith_leading_token s : Py.startswith (leading_token s) s = true.
Proof.
  induction s as [| c s IH]; [reflexivity |]. cbn [leading_token].
  destruct (Ascii.eqb c "_" || Ascii.eqb c "."); [reflexivity |].
  cbn [Py.startswith]. rewrite Ascii.eqb_refl. exact IH.
Qed.

Lemma startswith_contains sub s :
  Py.startswith sub s = true -> Py.contains sub s = true.
Proof. destruct s; simpl; intros ->; reflexivity. Qed.

Lemma contains_app sub pre s :
  Py.contains sub s = true -> Py.contains sub (pre ++ s) = true.
Proof.
  intros H. induction pre as [| c pre IH]; [exact H |].
  cbn [app Py.contains]. rewrite IH. apply orb_true_r.
Qed.

(** The last piece of a split is the end of the string. *)
Lemma split_last sep s : forall h t,
  Py.split sep s = h :: t ->
  (t = [] -> h = s) /\ exists pre, s = pre ++ last (h :: t) [].
Proof.
  induction s as [| c s IH]; intros h t.
  - simpl. intros [= <- <-]. split; [reflexivity |]. exists []. reflexivity.
  - cbn [Py.split]. destruct (split_cons sep s) as (h' & t' & Hs).
    rewrite Hs. destruct (IH _ _ Hs) as (Hone & pre & Hpre).
    destruct (Ascii.eqb c sep); intros [= <- <-].
    + split; [discriminate |].
      exists (c :: pre). cbn [app]. f_equal. exact Hpre.
    + destruct t' as [| x t''].
      * rewrite (Hone eq_refl). split; [reflexivity |].
        exists []. reflexivity.
      * split; [discriminate |].
        exists (c :: pre). cbn [app]. f_equal. exact Hpre.
Qed.

Lemma basename_suffix p : exists pre, p = pre ++ Py.basename p.
Proof.
  unfold Py.basename. destruct (split_cons "/" p) as (h & t & Hs).
  rewrite Hs. exact (proj2 (split_last _ _ Hs)).
Qed.

(** The fallback vendor is a piece of the file name. *)
Lemma leading_token_in_name (v filename : str) :
  Py.eqs (leading_token (Py.basename filename)) v = true ->
  Py.contains v filename = true.
Proof.
  intros H. apply eqs_eq in H. subst v.
  destruct (basename_suffix filename) as (pre & Hpre).
  rewrite Hpre at 2. apply contains_app, startswith_contains,
    startswith_leading_token.
Qed.

End NameFacts.

(* ===================================================================== *)
(** ** ocr.py and batch_ocr.py: the runs *)
(* ===================================================================== *)

Module OcrFacts.
Import OcrWorld.

(** The OCR stage starts by calling the engine, and writes at most the
    file named after the input. *)
Lemma perform_ocr_runs fs path :
  In (RunOCR path) (events (perform_ocr fs path)).
Proof.
  unfold perform_ocr, print. eff. left. reflexivity.
Qed.

Section Existing.
Variable fs : FileSystem.
Variable path : str.
Hypothesis present : exists_ (fs path) = true.

(** batch_ocr.py, the read fails, the name is unmarked. *)
Lemma batch_read_error_unmarked x :
  first_page_text (fs path) = inl x ->
  Py.contains MARKER (Py.basename path) = false ->
  BatchOcr.convert_to_searchable_pdf fs path =
  ([ReadFirstPage path; Print ReadError; Print PerformingOCR]
     ++ events (perform_ocr fs path),
   value (perform_ocr fs path)).
Proof.
  intros Hread Hname.
  rewrite (EffFacts.run_eq (BatchOcr.convert_to_searchable_pdf fs path)).
  unfold BatchOcr.convert_to_searchable_pdf, print.
  rewrite present, Hname. cbn [negb]. eff. rewrite Hread. eff.
  reflexivity.
Qed.

(** batch_ocr.py, the name is marked: whatever the read gives. *)
Lemma batch_marked :
  Py.contains MARKER (Py.basename path) = true ->
  BatchOcr.convert_to_searchable_pdf fs path =
  (ReadFirstPage path ::
     match first_page_text (fs path) with
     | inl _ => [Print ReadError; Print AlreadyProcessed]
     | inr _ => [Print AlreadyProcessed]
     end,
   inr None).
Proof.
  intros Hname.
  rewrite (EffFacts.run_eq (BatchOcr.convert_to_searchable_pdf fs path)).
  unfold BatchOcr.convert_to_searchable_pdf, print.
  rewrite present, Hname. cbn [negb]. eff.
  destruct (first_page_text (fs path)) as [x | text]; eff.
  - reflexivity.
  - rewrite andb_false_r. eff. reflexivity.
Qed.

(** ocr.py, the read fails. *)
Lemma single_read_error x :
  first_page_text (fs path) = inl x ->
  Ocr.convert_to_searchable_pdf fs path =
  ([ReadFirstPage path; Print ReadError], inr None).
Proof.
  intros Hread.
  rewrite (EffFacts.run_eq (Ocr.convert_to_searchable_pdf fs path)).
  unfold Ocr.convert_to_searchable_pdf, print.
  rewrite present. cbn [negb]. eff. rewrite Hread. eff. reflexivity.
Qed.

(** ocr.py, little text on the first page: OCR, whatever the name. *)
Lemma single_little_text text :
  first_page_text (fs path) = inr text ->
  length (Py.strip text) <= 100 ->
  Ocr.convert_to_searchable_pdf fs path =
  ([ReadFirstPage path; Print PerformingOCR] ++ events (perform_ocr fs path),
   value (perform_ocr fs path)).
Proof.
  intros Hread Hlen.
  rewrite (EffFacts.run_eq (Ocr.convert_to_searchable_pdf fs path)).
  unfold Ocr.convert_to_searchable_pdf, print.
  rewrite present. cbn [negb]. eff. rewrite Hread. eff.
  destruct (Nat.ltb_spec 100 (length (Py.strip text))); [lia |]. eff.
  reflexivity.
Qed.

(** Both scripts, more than 100 characters on the first page. *)
Lemma single_searchable text :
  first_page_text (fs path) = inr text ->
  100 < length (Py.strip text) ->
  Ocr.convert_to_searchable_pdf fs path =
  ([ReadFirstPage path; Print Searchable], inr (Some path)).
Proof.
  intros Hread Hlen.
  rewrite (EffFacts.run_eq (Ocr.convert_to_searchable_pdf fs path)).
  unfold Ocr.convert_to_searchable_pdf, print.
  rewrite present. cbn [negb]. eff. rewrite Hread. eff.
  destruct (Nat.ltb_spec 100 (length (Py.strip text))); [| lia]. eff.
  reflexivity.
Qed.

Lemma batch_searchable text :
  first_page_text (fs path) = inr text ->
  100 < length (Py.strip text) ->
  Py.contains MARKER (Py.basename path) = false ->
  BatchOcr.convert_to_searchable_pdf fs path =
  ([ReadFirstPage path; Print Searchable], inr (Some path)).
Proof.
  intros Hread Hlen Hname.
  rewrite (EffFacts.run_eq (BatchOcr.convert_to_searchable_pdf fs path)).
  unfold BatchOcr.convert_to_searchable_pdf, print.
  rewrite present, Hname. cbn [negb]. eff. rewrite Hread. eff.
  destruct (Nat.ltb_spec 100 (length (Py.strip text))); [| lia].
  cbn [andb]. eff. reflexivity.
Qed.
End Existing.

(** Both scripts, the file is missing. *)
Lemma batch_missing fs path :
  exists_ (fs path) = false ->
  BatchOcr.convert_to_searchable_pdf fs path = ([Print NotFound], inr None).
Proof.
  intros H. unfold BatchOcr.convert_to_searchable_pdf. rewrite H. reflexivity.
Qed.

End OcrFacts.

(* ===================================================================== *)
(** ** The model on concrete inputs *)
(* ===================================================================== *)

Module Checks.
Import Re Spec Extract Examples.

Example strip_both_ends :
  Py.strip (s{"  Tax "} ++ [Py.newline]) = s{"Tax"}.
Proof. reflexivity. Qed.

Example split_keeps_empty_pieces :
  Py.split "_" s{"a__b_"} = [s{"a"}; []; s{"b"}; []].
Proof. reflexivity. Qed.

Example replace_every_occurrence :
  Py.replace s{".pdf"} [] s{"a.pdf.b.pdf"} = s{"a.b"}.
Proof. reflexivity. Qed.

Example basename_of_path :
  Py.basename s{"/home/u/Foley_12.pdf"} = s{"Foley_12.pdf"}.
Proof. reflexivity. Qed.

(** The example line of the specification: the lazy description stops at
    the first place from which the rest of the pattern matches. *)
Example price_regex_on_one_line :
  regex_matches s{"Concrete Pump Rental 4 hrs $425.00"} =
  [(s{"Concrete Pump"}, s{"425.00"})].
Proof. vm_compute. reflexivity. Qed.

Example price_regex_thousands :
  regex_matches s{"Ready mix 3000 psi  12 CY  $1,234,567.89  "} =
  [(s{"Ready mix 3000"}, s{"1,234,567.89"})].
Proof. vm_compute. reflexivity. Qed.

Example price_regex_short_description :
  regex_matches s{"Tax $6.00"} = [].
Proof. vm_compute. reflexivity. Qed.

Example price_regex_needs_cents :
  regex_matches s{"Concrete Pump Rental $425"} = [].
Proof. vm_compute. reflexivity. Qed.

Example trailing_number_removed :
  clean_description s{"Widget 123"} = s{"Widget"}.
Proof. vm_compute. reflexivity. Qed.

Example short_description_dropped :
  regex_data [(s{"Tax    12.5"}, s{"6.00"})] = [].
Proof. vm_compute. reflexivity. Qed.

Example prices :
  map is_price [s{"$5.00"}; s{"$425.00"}; s{"$1,234.50"}; s{"$1,000,000.00"}] =
    [true; true; true; true] /\
  map is_price [s{"5.00"}; s{"$5"}; s{"$5.0"}; s{"$1234.50"}; s{"$1,23.00"};
                s{"$.50"}; s{"$5.000"}; s{"7"}] =
    [false; false; false; false; false; false; false; false].
Proof. split; reflexivity. Qed.

Example vendor_fallback :
  get_vendor_info s{"acme.corp_2024.pdf"} = s{"acme"} /\
  get_vendor_info s{"Haskins Inc 0042.pdf"} = s{"Rinker"}.
Proof. split; reflexivity. Qed.

(** Four columns, the last one currency-like in two of three rows: the
    price column is the last, the description column its left neighbour. *)
Example rightmost_column_wins :
  let t := [ [Some s{"Qty"}; Some s{"Description"}; Some s{"Unit"}; Some s{"Total"}];
             [Some s{"2"}; Some s{"Gravel"}; Some s{"$5.00"}; Some s{"$10.00"}];
             [Some s{"1"}; Some s{"Sand"}; Some s{"$7.50"}; Some s{"$7.50"}];
             [Some s{"x"}; Some s{"Note"}; None; Some []] ] in
  price_col_index (drop_header (frame t)) = 3%Z /\
  table_records t =
    Some [ {| Description := s{"$5.00"}; Total_Price := s{"$10.00"} |};
           {| Description := s{"$7.50"}; Total_Price := s{"$7.50"} |} ].
Proof. split; vm_compute; reflexivity. Qed.

End Checks.

(* ===================================================================== *)
(** ** The properties of the specification *)
(* ===================================================================== *)

Import Re Spec Extract Examples.

(** C1, as amended.  Every record that the extractor writes after it has
    started the regex search (Strategy B) has a description of more than 5
    characters, that is of at least 6, and a price in the currency format
    [$d{1,3}(,ddd)*.dd].  Strategy A checks neither. *)
Theorem regex_records_are_checked
    (lib : Library) (pdf_path : str) (r : record) :
  let run := extract_line_items_from_pdf lib pdf_path in
  In (Print StrategyB) (events run) ->
  emitted run r ->
  5 < length (Description r) /\ is_price (Total_Price r) = true.
Proof.
  intros run Hran (f & rows & Hw & Hr).
  destruct (ExtractFacts.fallback_output lib pdf_path (or_intror Hran))
    as (page & others & _ & _ & Hrows).
  destruct (Hrows f rows Hw) as (text & _ & Hdata).
  rewrite ExtractFacts.regex_value in Hdata.
  assert (In r (regex_data (regex_matches text))) as H.
  { destruct (regex_data (regex_matches text)); [discriminate |].
    injection Hdata as <-. exact Hr. }
  apply PriceFacts.regex_data_in in H as (d & p & Hm & -> & Hlen).
  split; [exact Hlen |].
  exact (PriceFacts.regex_matches_price _ _ _ Hm).
Qed.

Lemma regex_records_are_checked_witness :
  5 < length s{"Widget"} /\ is_price s{"$5.00"} = true.
Proof.
  apply (@regex_records_are_checked
           (one_page (page_of None s{"Widget 123 $5.00"})) s{"invoice.pdf"}
           {| Description := s{"Widget"}; Total_Price := s{"$5.00"} |}).
  - vm_compute. do 5 right. left. reflexivity.
  - exists s{"invoice_extracted.md"},
      [ {| Description := s{"Widget"}; Total_Price := s{"$5.00"} |} ].
    split; [vm_compute | left; reflexivity].
    do 7 right. left. reflexivity.
Defined.

(** C1, as stated, fails for Strategy A: from a table whose price column
    holds [7] and whose description column holds [ab], the extractor writes
    the record [(ab, 7)]: a description of 2 characters and a price that is
    not in the currency format. *)
Lemma table_record_unchecked :
  let r := {| Description := s{"ab"}; Total_Price := s{"7"} |} in
  emitted (extract_line_items_from_pdf
             (one_page (page_of (Some small_table) [])) s{"invoice.pdf"}) r /\
  length (Description r) < 6 /\
  is_price (Total_Price r) = false.
Proof.
  split; [| split; [vm_compute; lia | reflexivity]].
  exists s{"invoice_extracted.md"}, [ {| Description := s{"ab"}; Total_Price := s{"7"} |} ].
  split; [vm_compute | left; reflexivity].
  right. right. right. right. right. left. reflexivity.
Qed.

(** C2, as amended.  Strategy A scans the columns right to left and takes
    the first (rightmost) column in which more than half of the data rows,
    null cells included in the count of rows, hold a non-null cell with a
    digit or a ['$']; if no column passes, the sentinel [-1] is kept and
    Strategy A leaves no frame. *)
Theorem price_column_is_rightmost_majority (table_data : table) :
  let df := drop_header (frame table_data) in
  (price_col_index df = (-1)%Z /\ table_records table_data = None /\
   forall j, j < ncols df -> majority_of_rows df j = false)
  \/
  (exists i, price_col_index df = Z.of_nat i /\ i < ncols df /\
     majority_of_rows df i = true /\
     forall j, i < j < ncols df -> majority_of_rows df j = false).
Proof.
  intros df. unfold table_records. fold df.
  unfold price_col_index. rewrite ColumnFacts.scan_columns_rightmost.
  destruct (rightmost (majority_of_rows df) (ncols df)) as [i |] eqn:E.
  - right. exists i. apply ColumnFacts.rightmost_some in E as (? & ? & ?). auto.
  - left. repeat split; auto.
    intros j Hj. eapply ColumnFacts.rightmost_none; eassumption.
Qed.

(** C2, as stated, fails: in [sparse_table] the only non-null cell of the
    only column is currency-like, so more than 50% of the column's non-null
    cells match; yet the code selects no price column, because that cell is
    one of three data rows. *)
Lemma price_column_counts_null_cells :
  let df := drop_header (frame sparse_table) in
  price_column_of_spec df = Some 0 /\
  price_col_index df = (-1)%Z /\
  table_records sparse_table = None.
Proof. vm_compute. auto. Qed.

(** C7.  When Strategy A selects price column [0] the description column
    is clamped to [0] too, so that the description is read from the price
    column; for a price column [i > 0] the description column is [i - 1].
    The rows written are the rows whose price cell is currency-like, each
    with the normalised cell of the description column and the cell of the
    price column. *)
Theorem description_column_left_of_price (table_data : table) (rows : list record) :
  table_records table_data = Some rows ->
  let df := drop_header (frame table_data) in
  let p := price_col_index df in
  (0 <= p)%Z /\
  (p = 0%Z -> desc_col_index p = 0%Z) /\
  (0 < p -> desc_col_index p = p - 1)%Z /\
  rows =
    map (fun row =>
           {| Description :=
                Py.strip (Py.replace [Py.newline] s{" "}
                            (astype_str (at_col (desc_col_index p) row)));
              Total_Price := astype_str (at_col p row) |})
      (filter (fun row => has_currency_char (at_col p row)) (Extract.rows df)).
Proof.
  intros H df p. apply ExtractFacts.table_records_some in H as (Hp & Hrows).
  fold df in Hp, Hrows. fold p in Hp, Hrows.
  destruct (ExtractFacts.scan_columns_found df (ncols df) Hp) as (_ & Hpos & _).
  fold (price_col_index df) in Hpos. fold p in Hpos.
  repeat split.
  - exact Hpos.
  - intros ->. reflexivity.
  - intros H. unfold desc_col_index. lia.
  - rewrite Hrows.
    rewrite (filter_ext _ (fun row => has_currency_char (at_col p row)))
      by (intros; apply ColumnFacts.currency_like_cell).
    reflexivity.
Qed.

Lemma description_column_left_of_price_witness :
  let df := drop_header (frame price_first_table) in
  (price_col_index df = 0%Z -> desc_col_index (price_col_index df) = 0%Z) /\
  table_records price_first_table =
    Some [ {| Description := s{"$5.00"}; Total_Price := s{"$5.00"} |};
           {| Description := s{"$7.50"}; Total_Price := s{"$7.50"} |} ].
Proof.
  split.
  - apply (@description_column_left_of_price price_first_table
             [ {| Description := s{"$5.00"}; Total_Price := s{"$5.00"} |};
               {| Description := s{"$7.50"}; Total_Price := s{"$7.50"} |} ]).
    vm_compute. reflexivity.
  - vm_compute. reflexivity.
Defined.

(** C10, as amended.  A file name that contains ['Haskins Inc'] or
    ['Rinker'] gets the vendor ['Rinker']; one that contains neither but
    contains ['Foley'] gets ['Foley']; for exactly these two vendors the
    table is extracted from the page cropped to [(20, 250, 590, 780)].
    Every other file name gets the leading token of its base name (what
    precedes the first ['_'] or ['.']) and the uncropped page.  On a path
    with that base name the driver extracts the table from that region and
    from no other. *)
Theorem vendor_and_crop (filename : str) :
  let vendor := get_vendor_info filename in
  (if Py.contains s{"Haskins Inc"} filename || Py.contains s{"Rinker"} filename
   then vendor = s{"Rinker"} /\
        cropped_page vendor = Cropped (20, 250, 590, 780)%Z
   else if Py.contains s{"Foley"} filename
   then vendor = s{"Foley"} /\
        cropped_page vendor = Cropped (20, 250, 590, 780)%Z
   else vendor = leading_token (Py.basename filename) /\
        cropped_page vendor = Whole) /\
  (forall v, cropped_page v = Cropped (20, 250, 590, 780)%Z <->
             v = s{"Rinker"} \/ v = s{"Foley"}) /\
  (forall (lib : Library) (pdf_path : str) (r : region),
     Py.basename pdf_path = filename ->
     In (ExtractTable r) (events (extract_line_items_from_pdf lib pdf_path)) ->
     r = cropped_page vendor).
Proof.
  cbv zeta. split; [| split].
  - unfold get_vendor_info.
    destruct (Py.contains s{"Haskins Inc"} filename || Py.contains s{"Rinker"} filename)
      eqn:ER; [split; reflexivity |].
    destruct (Py.contains s{"Foley"} filename) eqn:EF; [split; reflexivity |].
    rewrite NameFacts.first_of_splits. split; [reflexivity |].
    apply orb_false_iff in ER as (_ & ER).
    unfold cropped_page, use_generic_crop.
    destruct (Py.eqs (leading_token (Py.basename filename)) s{"Rinker"}) eqn:E1.
    { apply NameFacts.leading_token_in_name in E1. congruence. }
    destruct (Py.eqs (leading_token (Py.basename filename)) s{"Foley"}) eqn:E2.
    { apply NameFacts.leading_token_in_name in E2. congruence. }
    reflexivity.
  - intros v. unfold cropped_page, use_generic_crop. split.
    + destruct (Py.eqs v s{"Rinker"}) eqn:E1;
        [left; apply NameFacts.eqs_eq; exact E1 |].
      destruct (Py.eqs v s{"Foley"}) eqn:E2;
        [right; apply NameFacts.eqs_eq; exact E2 | discriminate].
    + intros [-> | ->]; reflexivity.
  - intros lib pdf_path r <-. apply ExtractFacts.extract_table_region.
Qed.

(** C10, as stated, fails: a file name that contains ['Foley'] and also
    ['Rinker'] gets the vendor ['Rinker'], not ['Foley']. *)
Lemma foley_after_rinker :
  Py.contains s{"Foley"} s{"Foley_Rinker.pdf"} = true /\
  get_vendor_info s{"Foley_Rinker.pdf"} = s{"Rinker"} /\
  get_vendor_info s{"Foley_Rinker.pdf"} <> s{"Foley"}.
Proof. vm_compute. repeat split; discriminate. Qed.

Lemma vendor_and_crop_witness :
  get_vendor_info s{"Foley_7.pdf"} = s{"Foley"} /\
  cropped_page (get_vendor_info s{"Foley_7.pdf"}) = Cropped (20, 250, 590, 780)%Z.
Proof. exact (proj1 (vendor_and_crop s{"Foley_7.pdf"})). Defined.

(** C3.  When the structural extraction yields a table of at least 2 rows
    with a price column, Strategy B does not run (the page text is not
    read, the regex search is not started) and the rows written are
    Strategy A's.  Strategy B runs only when Strategy A found no table, a
    table of fewer than 2 rows or no price column, and what is written then
    is Strategy B's result alone. *)
Theorem strategy_A_precedence (lib : Library) (pdf_path : str) :
  let filename := Py.basename pdf_path in
  let vendor := get_vendor_info filename in
  let run := extract_line_items_from_pdf lib pdf_path in
  (forall page others t,
     lib pdf_path = inr (page :: others) ->
     extract_table page (cropped_page vendor) GENERIC_STREAM_SETTINGS = inr (Some t) ->
     2 <= length t ->
     price_col_index (drop_header (frame t)) <> (-1)%Z ->
     ~ In ExtractText (events run) /\ ~ In (Print StrategyB) (events run) /\
     exists rows, table_records t = Some rows /\ rows <> [] /\
       value run = inr true /\
       forall f rows', In (Write f rows') (events run) -> rows' = rows)
  /\
  (In ExtractText (events run) \/ In (Print StrategyB) (events run) ->
   exists page others,
     lib pdf_path = inr (page :: others) /\
     (extract_table page (cropped_page vendor) GENERIC_STREAM_SETTINGS = inr None \/
      exists t, extract_table page (cropped_page vendor) GENERIC_STREAM_SETTINGS = inr (Some t) /\
                (length t < 2 \/
                 price_col_index (drop_header (frame t)) = (-1)%Z)) /\
     forall f rows', In (Write f rows') (events run) ->
       exists text, extract_text page = inr text /\
         value (extract_with_regex text filename) = inr (Some rows')).
Proof.
  intros filename vendor run. split.
  - intros page others t Hl Ht Hlen Hp.
    destruct (ExtractFacts.strategy_A_frame page vendor Ht Hlen Hp) as (r & rows & Hrec & HA).
    unfold run. rewrite (ExtractFacts.run_A lib pdf_path Hl HA).
    fold filename. fold vendor. cbn [events value fst snd app In].
    assert (forall e, In e (events (strategy_A page vendor) ++
                            [Write (Py.replace s{".pdf"} [] filename ++ s{"_extracted.md"})
                               (r :: rows);
                             Print (FinalSuccess (length (r :: rows))
                                      (Py.replace s{".pdf"} [] filename
                                         ++ s{"_extracted.md"}))]) ->
              e <> ExtractText /\ e <> Print StrategyB /\
              forall f rows', e = Write f rows' -> rows' = r :: rows) as Q.
    { intros e He. apply in_app_or in He as [He | [<- | [<- | []]]].
      - apply ExtractFacts.strategy_A_quiet in He as (? & ? & Hw).
        repeat split; auto. intros f rows' ->. destruct (Hw f rows' eq_refl).
      - repeat split; try discriminate. intros f rows' [= _ <-]. reflexivity.
      - repeat split; discriminate. }
    repeat split.
    + intros [[=] | [[=] | H]]. apply Q in H as (H & _). congruence.
    + intros [[=] | [[=] | H]]. apply Q in H as (_ & H & _). congruence.
    + exists (r :: rows). repeat split; auto; [discriminate |].
      intros f rows' [[=] | [[=] | H]]. apply Q in H as (_ & _ & H). eauto.
  - intros Hran.
    destruct (ExtractFacts.fallback_output lib pdf_path Hran)
      as (page & others & Hl & HA & Hw).
    exists page, others. split; [exact Hl |].
    split; [exact (ExtractFacts.strategy_A_nothing page vendor HA) | exact Hw].
Qed.

Lemma strategy_A_precedence_witness :
  let run := extract_line_items_from_pdf
               (one_page (page_of (Some price_first_table) two_priced_lines))
               s{"invoice.pdf"} in
  ~ In ExtractText (events run) /\ ~ In (Print StrategyB) (events run) /\
  exists rows, table_records price_first_table = Some rows /\ rows <> [] /\
    value run = inr true /\
    forall f rows', In (Write f rows') (events run) -> rows' = rows.
Proof.
  apply (proj1 (strategy_A_precedence
                  (one_page (page_of (Some price_first_table) two_priced_lines))
                  s{"invoice.pdf"})
           (page_of (Some price_first_table) two_priced_lines) []
           price_first_table).
  - reflexivity.
  - reflexivity.
  - simpl. lia.
  - vm_compute. discriminate.
Defined.

(** C9.  When Strategy A yields no records and Strategy B yields no records
    either, the extractor returns [False], reports the failure and writes
    no output file. *)
Theorem no_records_no_report (lib : Library) (pdf_path : str)
    (page : Page) (others : list Page) :
  let filename := Py.basename pdf_path in
  let vendor := get_vendor_info filename in
  let run := extract_line_items_from_pdf lib pdf_path in
  lib pdf_path = inr (page :: others) ->
  (forall r rows, value (strategy_A page vendor) <> inr (Some (r :: rows))) ->
  (forall text r rows,
     extract_text page = inr text ->
     value (extract_with_regex text filename) <> inr (Some (r :: rows))) ->
  value run = inr false /\
  (In (Print BothFailed) (events run) \/ In (Print Unexpected) (events run)) /\
  forall f rows, ~ In (Write f rows) (events run).
Proof.
  intros filename vendor run Hl HnoA HnoB. unfold run.
  assert (forall l f rows,
            In (Write f rows) (events (strategy_A page vendor) ++ l) ->
            (In (Write f rows) l -> False) -> False) as QA.
  { intros l f rows H Hl'. apply in_app_or in H as [H | H]; auto.
    apply ExtractFacts.strategy_A_quiet in H as (_ & _ & H).
    exact (H f rows eq_refl). }
  destruct (value (strategy_A page vendor)) as [x | A] eqn:HA.
  { rewrite (ExtractFacts.run_A_raises lib pdf_path Hl HA).
    fold filename. fold vendor. cbn [events value fst snd app In].
    split; [reflexivity |]. split.
    - right. right. right. apply in_or_app. right. left. reflexivity.
    - intros f rows [[=] | [[=] | H]]. apply QA in H; auto.
      intros [[=] | []]. }
  destruct A as [[| r rows] |].
  - destruct (ExtractFacts.strategy_A_never_empty page vendor HA).
  - destruct (HnoA r rows eq_refl).
  - destruct (extract_text page) as [x | text] eqn:ET.
    + rewrite (ExtractFacts.run_text_raises lib pdf_path Hl HA eq_refl ET).
      fold filename. fold vendor. cbn [events value fst snd app In].
      split; [reflexivity |]. split.
      * right. right. right. apply in_or_app. right. right. left. reflexivity.
      * intros f rows [[=] | [[=] | H]]. apply QA in H; auto.
        intros [[=] | [[=] | []]].
    + rewrite (ExtractFacts.run_B lib pdf_path Hl HA eq_refl ET).
      fold filename. fold vendor. cbn [events value fst snd app In].
      specialize (HnoB text). rewrite ExtractFacts.regex_value in HnoB.
      destruct (regex_data (regex_matches text)) as [| r rows].
      2: destruct (HnoB r rows eq_refl eq_refl).
      split; [reflexivity |]. split.
      * left. right. right. apply in_or_app. right. right.
        apply in_or_app. right. left. reflexivity.
      * intros f rows [[=] | [[=] | H]]. apply QA in H; auto.
        intros [[=] | H']. apply in_app_or in H' as [H' | [[=] | []]].
        exact (ExtractFacts.regex_quiet _ _ H' eq_refl).
Qed.

Lemma no_records_no_report_witness :
  value (extract_line_items_from_pdf
           (one_page (page_of None s{"Thank you for your business"}))
           s{"invoice.pdf"}) = inr false.
Proof.
  apply (@no_records_no_report
           (one_page (page_of None s{"Thank you for your business"}))
           s{"invoice.pdf"}
           (page_of None s{"Thank you for your business"}) []).
  - reflexivity.
  - intros r rows. vm_compute. discriminate.
  - intros text r rows [= <-]. vm_compute. discriminate.
Defined.

(** C4 fails on the code.  On a page text of two lines that each match the
    pattern, Strategy B returns one record, not two: [\s+] and the junk
    tokens run across the line break, so the match that starts on the first
    line swallows the first price and ends at the second.  Matched line by
    line, as the claim describes, the text gives one record per line. *)
Theorem regex_match_spans_lines :
  value (extract_with_regex two_priced_lines s{"invoice.pdf"}) =
    inr (Some [ {| Description := s{"Concrete Pump"};
                   Total_Price := s{"$75.00"} |} ]) /\
  records_per_line two_priced_lines =
    [ {| Description := s{"Concrete Pump"}; Total_Price := s{"$425.00"} |};
      {| Description := s{"Delivery Charge"}; Total_Price := s{"$75.00"} |} ].
Proof. split; vm_compute; reflexivity. Qed.

Import OcrWorld.

(** C5, as amended.  When the read of the first page of an existing file
    raises: batch_ocr.py reports it, treats the file as unsearchable and
    goes on to the OCR stage, unless the file name carries the marker
    ['_OCR_Layer.pdf'], in which case the file is skipped; ocr.py reports
    the error and returns [None] without attempting OCR. *)
Theorem read_failure_handling (fs : FileSystem) (path : str) (x : exn) :
  exists_ (fs path) = true ->
  first_page_text (fs path) = inl x ->
  (if Py.contains MARKER (Py.basename path)
   then BatchOcr.convert_to_searchable_pdf fs path =
          ([ReadFirstPage path; Print ReadError; Print AlreadyProcessed], inr None)
   else BatchOcr.convert_to_searchable_pdf fs path =
          ([ReadFirstPage path; Print ReadError; Print PerformingOCR]
             ++ events (perform_ocr fs path),
           value (perform_ocr fs path)) /\
        In (RunOCR path) (events (BatchOcr.convert_to_searchable_pdf fs path)))
  /\
  Ocr.convert_to_searchable_pdf fs path =
    ([ReadFirstPage path; Print ReadError], inr None).
Proof.
  intros Hex Hread. split; [| exact (OcrFacts.single_read_error fs path Hex Hread)].
  destruct (Py.contains MARKER (Py.basename path)) eqn:Hname.
  - rewrite (OcrFacts.batch_marked fs path Hex Hname), Hread. reflexivity.
  - rewrite (OcrFacts.batch_read_error_unmarked fs path Hex Hread Hname).
    split; [reflexivity |]. cbn [events fst]. apply in_or_app. right.
    apply OcrFacts.perform_ocr_runs.
Qed.

Lemma read_failure_handling_witness :
  BatchOcr.convert_to_searchable_pdf unreadable s{"scan.pdf"} =
    ([ReadFirstPage s{"scan.pdf"}; Print ReadError; Print PerformingOCR;
      RunOCR s{"scan.pdf"}; Write s{"scan_OCR_Layer.pdf"} s{"%PDF"};
      Print (OcrSuccess s{"scan_OCR_Layer.pdf"})],
     inr (Some s{"scan_OCR_Layer.pdf"})).
Proof.
  apply (proj1 (@read_failure_handling unreadable s{"scan.pdf"} OtherError
                  eq_refl eq_refl)).
Defined.

(** C5, as stated, fails: the read of the first page raises, and no OCR is
    attempted, by batch_ocr.py on a file whose name carries the marker and
    by ocr.py on any file. *)
Lemma read_failure_without_ocr :
  first_page_text (unreadable s{"scan_OCR_Layer.pdf"}) = inl OtherError /\
  BatchOcr.convert_to_searchable_pdf unreadable s{"scan_OCR_Layer.pdf"} =
    ([ReadFirstPage s{"scan_OCR_Layer.pdf"}; Print ReadError;
      Print AlreadyProcessed], inr None) /\
  Ocr.convert_to_searchable_pdf unreadable s{"scan.pdf"} =
    ([ReadFirstPage s{"scan.pdf"}; Print ReadError], inr None).
Proof. repeat split. Qed.

(** C6, as amended.  For a file whose name carries the marker
    ['_OCR_Layer.pdf'], batch_ocr.py returns [None], attempts no OCR and
    writes no file; when the file exists it is reported as already
    processed.  ocr.py has no such check: when the first page of such a file
    has at most 100 characters it goes on to the OCR stage as for any other
    file. *)
Theorem marked_file_is_skipped (fs : FileSystem) (path : str) :
  Py.contains MARKER (Py.basename path) = true ->
  let run := BatchOcr.convert_to_searchable_pdf fs path in
  value run = inr None /\
  ~ In (RunOCR path) (events run) /\
  (forall f data, ~ In (Write f data) (events run)) /\
  (exists_ (fs path) = true -> In (Print AlreadyProcessed) (events run)) /\
  (forall text,
     exists_ (fs path) = true ->
     first_page_text (fs path) = inr text ->
     length (Py.strip text) <= 100 ->
     Ocr.convert_to_searchable_pdf fs path =
       ([ReadFirstPage path; Print PerformingOCR] ++ events (perform_ocr fs path),
        value (perform_ocr fs path))).
Proof.
  intros Hname run. unfold run. repeat apply conj.
  5: { intros text Hex Hread Hlen.
       exact (OcrFacts.single_little_text fs path Hex Hread Hlen). }
  all: destruct (exists_ (fs path)) eqn:Hex;
    [ rewrite (OcrFacts.batch_marked fs path Hex Hname);
      destruct (first_page_text (fs path))
    | rewrite (OcrFacts.batch_missing fs path Hex) ];
    cbn [events value fst snd In]; try reflexivity;
    try (intros; intuition discriminate).
Qed.

Lemma marked_file_is_skipped_witness :
  value (BatchOcr.convert_to_searchable_pdf scanned s{"scan_OCR_Layer.pdf"}) =
    inr None.
Proof.
  apply (@marked_file_is_skipped scanned s{"scan_OCR_Layer.pdf"}).
  reflexivity.
Defined.

(** C6, as stated, fails for ocr.py: on a marked file with little text on
    its first page it runs the OCR engine again and writes a new output
    file. *)
Lemma ocr_py_reprocesses_marked_file :
  Py.contains MARKER s{"scan_OCR_Layer.pdf"} = true /\
  Ocr.convert_to_searchable_pdf scanned s{"scan_OCR_Layer.pdf"} =
    ([ReadFirstPage s{"scan_OCR_Layer.pdf"}; Print PerformingOCR;
      RunOCR s{"scan_OCR_Layer.pdf"};
      Write s{"scan_OCR_Layer_OCR_Layer.pdf"} s{"%PDF"};
      Print (OcrSuccess s{"scan_OCR_Layer_OCR_Layer.pdf"})],
     inr (Some s{"scan_OCR_Layer_OCR_Layer.pdf"})).
Proof. split; reflexivity. Qed.

(** C8.  For an existing PDF whose first page has more than 100 characters
    of stripped text and whose name does not carry the marker, both scripts
    return the input path unchanged after reading the first page: no OCR is
    run and nothing is written. *)
Theorem searchable_pdf_returned_unchanged
    (fs : FileSystem) (path text : str) :
  exists_ (fs path) = true ->
  first_page_text (fs path) = inr text ->
  100 < length (Py.strip text) ->
  Py.contains MARKER (Py.basename path) = false ->
  BatchOcr.convert_to_searchable_pdf fs path =
    ([ReadFirstPage path; Print Searchable], inr (Some path)) /\
  Ocr.convert_to_searchable_pdf fs path =
    ([ReadFirstPage path; Print Searchable], inr (Some path)).
Proof.
  intros Hex Hread Hlen Hname. split.
  - exact (OcrFacts.batch_searchable fs path Hex Hread Hlen Hname).
  - exact (OcrFacts.single_searchable fs path Hex Hread Hlen).
Qed.

Lemma searchable_pdf_returned_unchanged_witness :
  BatchOcr.convert_to_searchable_pdf born_digital s{"invoices/acme_12.pdf"} =
    ([ReadFirstPage s{"invoices/acme_12.pdf"}; Print Searchable],
     inr (Some s{"invoices/acme_12.pdf"})) /\
  Ocr.convert_to_searchable_pdf born_digital s{"invoices/acme_12.pdf"} =
    ([ReadFirstPage s{"invoices/acme_12.pdf"}; Print Searchable],
     inr (Some s{"invoices/acme_12.pdf"})).
Proof.
  apply (@searchable_pdf_returned_unchanged born_digital
           s{"invoices/acme_12.pdf"} long_text).
  - reflexivity.
  - reflexivity.
  - vm_compute. lia.
  - reflexivity.
Defined.

(* ===================================================================== *)
(** ** Further properties of the code *)
(* ===================================================================== *)

(** *** Strings *)

Module StringFacts.

Lemma in_lstrip c s : In c (Py.lstrip s) -> In c s.
Proof.
  induction s as [| x s IH]; simpl; [tauto |].
  destruct (Py.isspace x); simpl; tauto.
Qed.

Lemma in_strip c s : In c (Py.strip s) -> In c s.
Proof.
  unfold Py.strip, Py.rstrip. intros H.
  apply in_rev, in_lstrip in H. apply in_rev in H. exact (in_lstrip _ _ H).
Qed.

Lemma lstrip_fixed c s : Py.isspace c = false -> Py.lstrip (c :: s) = c :: s.
Proof. simpl. intros ->. reflexivity. Qed.

Lemma lstrip_lstrip s : Py.lstrip (Py.lstrip s) = Py.lstrip s.
Proof.
  induction s as [| x s IH]; simpl; [reflexivity |].
  destruct (Py.isspace x) eqn:E; [exact IH |]. simpl. rewrite E. reflexivity.
Qed.

(** What [lstrip] leaves of a string that ends with a non-space character
    ends with that character. *)
Lemma lstrip_snoc s c :
  Py.isspace c = false -> exists u, Py.lstrip (s ++ [c]) = u ++ [c].
Proof.
  intros Hc. induction s as [| x s IH]; simpl.
  - rewrite Hc. exists []. reflexivity.
  - destruct (Py.isspace x); [exact IH |]. exists (x :: s). reflexivity.
Qed.

Lemma lstrip_cases s :
  Py.lstrip s = [] \/ exists c t, Py.lstrip s = c :: t /\ Py.isspace c = false.
Proof.
  induction s as [| x s IH]; simpl; [auto |].
  destruct (Py.isspace x) eqn:E; [exact IH |]. right. eauto.
Qed.

Lemma rstrip_rstrip t : Py.rstrip (Py.rstrip t) = Py.rstrip t.
Proof.
  unfold Py.rstrip. rewrite rev_involutive, lstrip_lstrip. reflexivity.
Qed.

Lemma lstrip_rstrip_lstrip s :
  Py.lstrip (Py.rstrip (Py.lstrip s)) = Py.rstrip (Py.lstrip s).
Proof.
  destruct (lstrip_cases s) as [-> | (c & t & -> & Hc)]; [reflexivity |].
  unfold Py.rstrip. cbn [rev].
  destruct (@lstrip_snoc (rev t) c Hc) as (u & ->).
  rewrite rev_app_distr. cbn [rev app]. apply lstrip_fixed. exact Hc.
Qed.

(** [strip] is idempotent: a stripped string has no white space left at
    either end. *)
Lemma strip_strip s : Py.strip (Py.strip s) = Py.strip s.
Proof.
  unfold Py.strip. rewrite lstrip_rstrip_lstrip. apply rstrip_rstrip.
Qed.

(** Both ends of a stripped string are not white space. *)
Lemma strip_ends s c t :
  Py.strip s = c :: t ->
  Py.isspace c = false /\ Py.isspace (last (c :: t) c) = false.
Proof.
  unfold Py.strip. intros H.
  destruct (lstrip_cases s) as [E | (x & u & E & Hx)]; rewrite E in H.
  - discriminate.
  - unfold Py.rstrip in H. cbn [rev] in H.
    destruct (@lstrip_snoc (rev u) x Hx) as (v & Hv). rewrite Hv in H.
    rewrite rev_app_distr in H. cbn [rev app] in H. injection H as <- <-.
    split; [exact Hx |].
    destruct (lstrip_cases (rev u ++ [x])) as [E' | (y & w & E' & Hy)];
      rewrite Hv in E'.
    + destruct v; discriminate.
    + assert (rev (v ++ [x]) = rev (y :: w)) as R by (f_equal; exact E').
      rewrite rev_app_distr in R. cbn [rev app] in R.
      rewrite R. rewrite last_last. exact Hy.
Qed.

End StringFacts.

Module ShapeFacts.
Import Shape.

Lemma free_of_in a s : free_of a s = true <-> ~ In a s.
Proof.
  unfold free_of. induction s as [| c s IH]; simpl; [tauto |].
  rewrite andb_true_iff, IH, negb_true_iff, Ascii.eqb_neq. intuition congruence.
Qed.

Lemma free_of_incl a s t :
  (forall c, In c s -> In c t) -> free_of a t = true -> free_of a s = true.
Proof. rewrite !free_of_in. auto. Qed.

Lemma free_of_app a s t :
  free_of a (s ++ t) = free_of a s && free_of a t.
Proof. apply forallb_app. Qed.

Lemma one_line_free s : one_line s = free_of Py.newline s.
Proof. reflexivity. Qed.

Lemma trimmed_strip s : trimmed (Py.strip s) = true.
Proof.
  destruct (Py.strip s) as [| c t] eqn:E; [reflexivity |].
  destruct (StringFacts.strip_ends _ E) as (H1 & H2).
  unfold trimmed. rewrite H1, H2. reflexivity.
Qed.

End ShapeFacts.

(** *** Strategy B *)

Module RegexMore.
Import Re Spec Extract Shape ReFacts.

(** Every tuple of [findall] is the capture of a match on some end of the
    text. *)
Lemma findall_from_suffix r g : forall s skip,
  In g (findall_from r skip s) ->
  exists pre s' m, s = pre ++ s' /\ match_here r s' = Some m /\ g = caps m.
Proof.
  induction s as [| c s IH]; intros skip H.
  - destruct skip; simpl in H; [| destruct H].
    destruct (match_here r []) eqn:E; [| destruct H].
    destruct H as [<- | []]. exists [], []. eauto.
  - assert (forall k, In g (findall_from r k s) ->
              exists pre s' m, c :: s = pre ++ s' /\
                               match_here r s' = Some m /\ g = caps m) as K.
    { intros k Hk. apply IH in Hk as (pre & s' & m & -> & ? & ?).
      exists (c :: pre), s', m. auto. }
    destruct skip; simpl in H; [| eauto].
    destruct (match_here r (c :: s)) eqn:E; [| eauto].
    destruct H as [<- | H]; [| eauto].
    exists [], (c :: s). eauto.
Qed.

(** Substituting the empty string only removes characters. *)
Lemma in_sub_from r c : forall s skip,
  In c (sub_from r [] skip s) -> In c s.
Proof.
  induction s as [| x s IH]; intros skip H.
  - destruct skip; simpl in H.
    + destruct (match_here r []) as [m |]; [destruct (consumed m) |]; destruct H.
    + destruct H.
  - destruct skip; simpl in H; [| right; eauto].
    destruct (match_here r (x :: s)) as [m |].
    + destruct (consumed m); simpl in H.
      * destruct H as [<- | H]; [left; reflexivity | right; eauto].
      * right. eauto.
    + destruct H as [<- | H]; [left; reflexivity | right; eauto].
Qed.

Lemma in_clean_description c d : In c (clean_description d) -> In c d.
Proof.
  unfold clean_description, sub. intros H.
  apply StringFacts.in_strip in H. exact (in_sub_from _ _ _ _ H).
Qed.

(** At least [lo] characters, none of them a line break. *)
Lemma lang_dots lo greedy w :
  lang (Rep dot lo None greedy) w -> lo <= length w /\ one_line w = true.
Proof.
  intros (ws & -> & Hws & Hlo & _).
  assert (one_line (concat ws) = true /\ length (concat ws) = length ws)
    as (? & E).
  { clear Hlo. induction Hws as [| x ws (c & -> & Hc) _ (IH1 & IH2)]; simpl.
    - auto.
    - rewrite Hc, IH2. auto. }
  split; [lia | assumption].
Qed.

(** Group 1 of any match of [PRICE_REGEX]. *)
Lemma description_group s g m :
  In m (run PRICE_REGEX s g) -> lang (Rep dot 10 None false) (caps m 1).
Proof.
  unfold PRICE_REGEX. intros H.
  apply in_cat in H as (a1 & b1 & Hg & H & ->).
  apply in_cat in H as (a2 & b2 & H2 & H & ->).
  apply in_cat in H as (a3 & b3 & H3 & H & ->).
  apply in_cat in H as (a4 & b4 & H4 & H & ->).
  apply in_cat in H as (a5 & b5 & H5 & H & ->).
  apply run_groupless in H; [| reflexivity].
  apply run_groupless in H2; [| reflexivity].
  apply run_groupless in H3; [| reflexivity].
  apply run_groupless in H4; [| reflexivity].
  apply in_grp in H5 as (a & Ha & _ & _ & Hc).
  apply run_groupless in Ha; [| reflexivity].
  apply in_grp in Hg as (a0 & Ha0 & _ & _ & Hc0).
  apply run_sound in Ha0 as (La & _).
  simpl. rewrite H, Hc, Ha, H4, H3, H2, Hc0. unfold set_group. simpl. exact La.
Qed.

(** A match of [PRICE_REGEX] needs a dollar sign in the text. *)
Lemma match_has_dollar s g m :
  In m (run PRICE_REGEX s g) -> In "$"%char s.
Proof.
  intros H. apply run_sound in H as (L & ->).
  destruct L as (w1 & w' & -> & _ & w2 & w'' & -> & _ & w3 & w''' & -> & _ &
                 w4 & w5 & -> & L4 & _).
  apply PriceFacts.lang_lit in L4 as ->.
  rewrite !in_app_iff. simpl. tauto.
Qed.

Lemma in_split sep c : forall s l,
  In l (Py.split sep s) -> In c l -> In c s.
Proof.
  induction s as [| x s IH]; intros l Hl Hc.
  - simpl in Hl. destruct Hl as [<- | []]. exact Hc.
  - cbn [Py.split] in Hl.
    destruct (NameFacts.split_cons sep s) as (h & t & Hs). rewrite Hs in *.
    destruct (Ascii.eqb x sep).
    + destruct Hl as [<- | Hl]; [destruct Hc | right; eauto].
    + destruct Hl as [<- | Hl].
      * destruct Hc as [<- | Hc]; [left; reflexivity |].
        right. apply (IH h); [left; reflexivity | exact Hc].
      * right. apply (IH l); [right; exact Hl | exact Hc].
Qed.

Lemma in_join sep c : forall ls,
  In c (Py.join sep ls) -> In c sep \/ exists l, In l ls /\ In c l.
Proof.
  induction ls as [| x ls IH]; simpl; [tauto |].
  destruct ls as [| y ls'].
  - intros H. right. exists x. auto.
  - intros H. apply in_app_or in H as [H | H]; [right; exists x; auto |].
    apply in_app_or in H as [H | H]; [auto |].
    apply IH in H as [H | (l & Hl & Hc)]; [auto |].
    right. exists l. auto.
Qed.

(** The cleaned text of line 47 holds no character that the page text does
    not hold, line breaks apart. *)
Lemma in_cleaned_text c page_text :
  In c (Py.join [Py.newline]
          (map Py.strip (filter nonblank (Py.split Py.newline page_text)))) ->
  c = Py.newline \/ In c page_text.
Proof.
  intros H. apply in_join in H as [[<- | []] | (l & Hl & Hc)]; [auto |].
  right. apply in_map_iff in Hl as (l0 & <- & Hl0).
  apply filter_In in Hl0 as (Hl0 & _).
  apply StringFacts.in_strip in Hc. exact (in_split _ _ _ _ Hl0 Hc).
Qed.

Lemma regex_matches_in page_text description_raw price_numbers :
  In (description_raw, price_numbers) (regex_matches page_text) ->
  10 <= length description_raw /\ one_line description_raw = true /\
  In "$"%char page_text.
Proof.
  unfold regex_matches, findall. intros H.
  apply in_map_iff in H as (g & [= <- _] & H).
  apply findall_from_suffix in H as (pre & s' & m & Hs & Hm & ->).
  apply match_here_in in Hm.
  destruct (lang_dots (description_group _ _ _ Hm)) as (? & ?).
  repeat split; auto.
  apply match_has_dollar in Hm.
  assert (In "$"%char (pre ++ s')) as Hd by (apply in_or_app; auto).
  rewrite <- Hs in Hd. apply in_cleaned_text in Hd as [[=] | Hd]. exact Hd.
Qed.

End RegexMore.

(** *** Strategy A *)

Module TableMore.
Import Re Spec Extract Shape.

Lemma over_half_rows df1 df2 i :
  rows df1 = rows df2 -> over_half df1 i = over_half df2 i.
Proof.
  unfold over_half, len, currency_count. intros ->. reflexivity.
Qed.

Lemma scan_columns_rows df1 df2 n :
  rows df1 = rows df2 -> scan_columns df1 n = scan_columns df2 n.
Proof.
  intros E. induction n as [| i IH]; simpl; [reflexivity |].
  rewrite (over_half_rows _ _ _ E), IH. reflexivity.
Qed.

(** A column past the end of every row holds null cells only, and does not
    pass the test. *)
Lemma over_half_beyond df i :
  (forall row, In row (rows df) -> length row <= i) ->
  over_half df (Z.of_nat i) = false.
Proof.
  intros H. unfold over_half, currency_count, len.
  assert (filter (fun row => currency_like (at_col (Z.of_nat i) row)) (rows df) = [])
    as ->.
  { induction (rows df) as [| row l IH]; [reflexivity |]. simpl.
    unfold at_col at 1. rewrite Nat2Z.id.
    rewrite (nth_overflow row None) by (apply H; left; reflexivity).
    change (currency_like None) with false. apply IH.
    intros r Hr. apply H. right. exact Hr. }
  simpl. apply Z.ltb_ge. lia.
Qed.

Lemma scan_columns_beyond df m : forall n,
  m <= n ->
  (forall row, In row (rows df) -> length row <= m) ->
  scan_columns df n = scan_columns df m.
Proof.
  induction n as [| i IH]; intros Hmn H.
  - replace m with 0 by lia. reflexivity.
  - destruct (Nat.eq_dec m (S i)) as [-> | Hne]; [reflexivity |].
    simpl. rewrite over_half_beyond.
    + apply IH; [lia | exact H].
    + intros row Hr. apply Nat.le_trans with m; [apply H; exact Hr | lia].
Qed.

Lemma frame_bound t row : In row t -> length row <= ncols (frame t).
Proof.
  unfold frame. cbn [ncols].
  induction t as [| x t IH]; simpl; [tauto |].
  intros [<- | H]; [apply Nat.le_max_l |].
  apply Nat.le_trans with (1 := IH H). apply Nat.le_max_r.
Qed.

(** The price column of a table does not depend on its header row. *)
Lemma price_col_index_header h t :
  price_col_index (drop_header (frame (h :: t))) = price_col_index (frame t).
Proof.
  unfold price_col_index.
  rewrite (@scan_columns_beyond _ (ncols (frame t))).
  - apply scan_columns_rows. reflexivity.
  - cbn. apply Nat.le_max_r.
  - intros row Hr. apply frame_bound. exact Hr.
Qed.

Lemma in_replace_newline c s :
  In c (Py.replace [Py.newline] s{" "} s) -> c <> Py.newline.
Proof.
  unfold Py.replace. induction s as [| x s IH]; [intros [] |].
  cbn [Py.replace_from Py.startswith length pred]. rewrite andb_true_r.
  destruct (Ascii.eqb Py.newline x) eqn:E.
  - intros H. apply in_app_or in H as [[<- | []] | H]; [discriminate | auto].
  - intros [<- | H]; [| auto].
    apply Ascii.eqb_neq in E. congruence.
Qed.

Lemma one_line_description c :
  one_line (Py.strip (Py.replace [Py.newline] s{" "} c)) = true.
Proof.
  unfold one_line. apply forallb_forall. intros x Hx.
  apply StringFacts.in_strip, in_replace_newline in Hx.
  apply negb_true_iff. apply Ascii.eqb_neq. exact Hx.
Qed.

End TableMore.

(** *** extract.py: the two strategies *)

Module ExtractProps.
Import Re Spec Extract Shape Examples.

(** X1.  Every description that Strategy B returns is cleaned from a raw
    description of at least 10 characters of one line: it holds no line
    break and has no white space at either end. *)
Theorem regex_descriptions_shape
    (page_text filename : str) (data : list record) (r : record) :
  value (extract_with_regex page_text filename) = inr (Some data) ->
  In r data ->
  one_line (Description r) = true /\
  trimmed (Description r) = true /\
  exists description_raw,
    10 <= length description_raw /\ one_line description_raw = true /\
    Description r = clean_description description_raw.
Proof.
  rewrite ExtractFacts.regex_value. intros Hdata Hr.
  assert (In r (regex_data (regex_matches page_text))) as H.
  { destruct (regex_data (regex_matches page_text)); [discriminate |].
    injection Hdata as <-. exact Hr. }
  apply PriceFacts.regex_data_in in H as (d & p & Hm & -> & _).
  apply RegexMore.regex_matches_in in Hm as (Hlen & Hline & _).
  cbn [Description]. repeat split.
  - rewrite ShapeFacts.one_line_free in *.
    apply (ShapeFacts.free_of_incl _ _ d); [| exact Hline].
    intros c. apply RegexMore.in_clean_description.
  - apply ShapeFacts.trimmed_strip.
  - exists d. auto.
Qed.

Lemma regex_descriptions_shape_witness :
  one_line s{"Widget"} = true /\ trimmed s{"Widget"} = true /\
  exists description_raw,
    10 <= length description_raw /\ one_line description_raw = true /\
    s{"Widget"} = clean_description description_raw.
Proof.
  apply (@regex_descriptions_shape s{"Widget 123 $5.00"} s{"invoice.pdf"}
           [ {| Description := s{"Widget"}; Total_Price := s{"$5.00"} |} ]
           {| Description := s{"Widget"}; Total_Price := s{"$5.00"} |}).
  - vm_compute. reflexivity.
  - left. reflexivity.
Defined.

(** X2.  On a page text without a dollar sign Strategy B finds nothing: it
    returns [None] after its opening message. *)
Theorem no_dollar_no_records (page_text filename : str) :
  free_of "$" page_text = true ->
  extract_with_regex page_text filename = ([Print StrategyB], inr None).
Proof.
  intros Hfree. apply ShapeFacts.free_of_in in Hfree.
  assert (regex_matches page_text = []) as E.
  { destruct (regex_matches page_text) as [| [d p] l] eqn:E; [reflexivity |].
    destruct Hfree.
    apply (RegexMore.regex_matches_in page_text d p). rewrite E. left. reflexivity. }
  unfold extract_with_regex. rewrite E. reflexivity.
Qed.

Lemma no_dollar_no_records_witness :
  extract_with_regex s{"Thank you for your business"} s{"invoice.pdf"} =
  ([Print StrategyB], inr None).
Proof.
  apply (@no_dollar_no_records s{"Thank you for your business"} s{"invoice.pdf"}).
  reflexivity.
Defined.

(** X3.  The header row of a table is discarded: two tables with the same
    data rows give the same Strategy A records, whatever their headers. *)
Theorem header_is_ignored (h1 h2 : list cell) (data_rows : table) :
  table_records (h1 :: data_rows) = table_records (h2 :: data_rows).
Proof.
  unfold table_records. cbv zeta.
  rewrite !TableMore.price_col_index_header. reflexivity.
Qed.

(** X4.  When Strategy A selects a price column, it returns more than half
    of the data rows of the table, and never more than all of them. *)
Theorem table_records_majority (table_data : table) (recs : list record) :
  table_records table_data = Some recs ->
  length (tl table_data) < 2 * length recs /\
  length recs <= length (tl table_data).
Proof.
  intros H. apply ExtractFacts.table_records_some in H as (Hp & ->).
  cbv zeta in *. set (df := drop_header (frame table_data)) in *.
  apply ExtractFacts.scan_columns_found in Hp as (Hhalf & _).
  fold (price_col_index df) in Hhalf.
  unfold over_half, currency_count, len in Hhalf. apply Z.ltb_lt in Hhalf.
  rewrite length_map.
  change (Extract.rows df) with (tl table_data) in *.
  split; [lia | apply filter_length_le].
Qed.

Lemma table_records_majority_witness :
  length (tl price_first_table) < 2 * 2 /\ 2 <= length (tl price_first_table).
Proof.
  apply (@table_records_majority price_first_table
           [ {| Description := s{"$5.00"}; Total_Price := s{"$5.00"} |};
             {| Description := s{"$7.50"}; Total_Price := s{"$7.50"} |} ]).
  vm_compute. reflexivity.
Defined.

(** X5.  Every record that Strategy A returns has a price that holds a digit
    or a ['$'], and a description without line break and without white
    space at either end. *)
Theorem table_records_shape (table_data : table) (recs : list record) (r : record) :
  table_records table_data = Some recs ->
  In r recs ->
  has_currency_char (Some (Total_Price r)) = true /\
  one_line (Description r) = true /\
  trimmed (Description r) = true.
Proof.
  intros H Hr. apply ExtractFacts.table_records_some in H as (_ & ->).
  cbv zeta in Hr. apply in_map_iff in Hr as (row & <- & Hrow).
  apply filter_In in Hrow as (_ & Hc).
  unfold row_record. cbn [Description Total_Price]. repeat split.
  - destruct (at_col (price_col_index (drop_header (frame table_data))) row)
      as [s |] eqn:E.
    + rewrite <- ColumnFacts.currency_like_cell. exact Hc.
    + discriminate Hc.
  - apply TableMore.one_line_description.
  - apply ShapeFacts.trimmed_strip.
Qed.

Lemma table_records_shape_witness :
  has_currency_char (Some s{"$7.50"}) = true /\
  one_line s{"$7.50"} = true /\ trimmed s{"$7.50"} = true.
Proof.
  apply (@table_records_shape price_first_table
           [ {| Description := s{"$5.00"}; Total_Price := s{"$5.00"} |};
             {| Description := s{"$7.50"}; Total_Price := s{"$7.50"} |} ]
           {| Description := s{"$7.50"}; Total_Price := s{"$7.50"} |}).
  - vm_compute. reflexivity.
  - right. left. reflexivity.
Defined.

End ExtractProps.

(** *** extract.py: the driver *)

Module DriverMore.
Import Re Spec Extract Shape Trace.

Lemma reports_app l1 l2 : reports (l1 ++ l2) = reports l1 ++ reports l2.
Proof. apply flat_map_app. Qed.

Lemma reports_none l :
  (forall e, In e l -> forall f rows, e <> Write f rows) -> reports l = [].
Proof.
  induction l as [| e l IH]; intros H; [reflexivity |].
  cbn [reports flat_map]. fold (reports l).
  rewrite IH by (intros; apply H; right; assumption).
  destruct e as [m | path | r | | f0 rows0]; try reflexivity.
  destruct (H _ (or_introl eq_refl) f0 rows0 eq_refl).
Qed.

Lemma reports_cons e l : reports (e :: l) = reports [e] ++ reports l.
Proof. exact (reports_app [e] l). Qed.

Lemma reports_in l f rows : In (Write f rows) l -> In (f, rows) (reports l).
Proof.
  intros H. unfold reports. apply in_flat_map.
  exists (Write f rows). split; [exact H | left; reflexivity].
Qed.

Lemma reports_strategy_A page vendor : reports (events (strategy_A page vendor)) = [].
Proof.
  apply reports_none. intros e He.
  apply ExtractFacts.strategy_A_quiet in He as (_ & _ & H). exact H.
Qed.

Lemma reports_regex page_text filename :
  reports (events (extract_with_regex page_text filename)) = [].
Proof.
  apply reports_none. intros e He.
  eapply ExtractFacts.regex_quiet; eassumption.
Qed.

(** Every run ends with a value; the value is [True] exactly when one
    report, with at least one row, was written. *)
Lemma run_outcome (lib : Library) (pdf_path : str) :
  let output_file :=
    Py.replace s{".pdf"} [] (Py.basename pdf_path) ++ s{"_extracted.md"} in
  let run := extract_line_items_from_pdf lib pdf_path in
  (value run = inr true /\
   exists r t, reports (events run) = [(output_file, r :: t)]) \/
  (value run = inr false /\ reports (events run) = []).
Proof.
  intros output_file run. unfold run.
  destruct (lib pdf_path) as [x | [| page others]] eqn:Hl.
  1, 2: right; rewrite ExtractFacts.run_unopened by (intros ? ?; congruence);
    split; reflexivity.
  set (vendor := get_vendor_info (Py.basename pdf_path)).
  destruct (value (strategy_A page vendor)) as [x | A] eqn:HA.
  { right. rewrite (ExtractFacts.run_A_raises lib pdf_path Hl HA).
    cbn [events value fst snd]. split; [reflexivity |].
    fold vendor. rewrite !reports_app, reports_strategy_A. reflexivity. }
  destruct (none_or_empty A) eqn:EN.
  - destruct (extract_text page) as [x | text] eqn:ET.
    + right. rewrite (ExtractFacts.run_text_raises lib pdf_path Hl HA EN ET).
      cbn [events value fst snd]. split; [reflexivity |].
      fold vendor. rewrite !reports_app, reports_strategy_A. reflexivity.
    + rewrite (ExtractFacts.run_B lib pdf_path Hl HA EN ET).
      cbn [events value fst snd]. fold vendor.
      rewrite !reports_app, reports_strategy_A.
      rewrite (reports_cons ExtractText).
      rewrite reports_app, reports_regex.
      destruct (regex_data (regex_matches text)) as [| r t].
      * right. split; reflexivity.
      * left. split; [reflexivity |]. exists r, t. reflexivity.
  - destruct A as [[| r t] |]; try discriminate.
    left. rewrite (ExtractFacts.run_A lib pdf_path Hl HA).
    cbn [events value fst snd]. split; [reflexivity |].
    exists r, t. fold vendor. rewrite !reports_app, reports_strategy_A.
    reflexivity.
Qed.

End DriverMore.

Module NameMore.
Import Shape.

(** [replace('.pdf', '')] removes the extension of a dot-free stem. *)
Lemma replace_pdf_suffix stem :
  free_of "." stem = true -> Py.replace s{".pdf"} [] (stem ++ s{".pdf"}) = stem.
Proof.
  unfold Py.replace. induction stem as [| c stem IH]; [reflexivity |].
  cbn [free_of forallb]. intros H. apply andb_true_iff in H as (Hc & H).
  apply negb_true_iff in Hc. rewrite Ascii.eqb_sym in Hc.
  change ((c :: stem) ++ s{".pdf"}) with (c :: (stem ++ s{".pdf"})).
  change s{".pdf"} with ("."%char :: s{"pdf"}) at 1.
  cbn [Py.replace_from Py.startswith]. rewrite Hc. cbn [andb].
  f_equal. exact (IH H).
Qed.

End NameMore.

Module DriverProps.
Import Re Spec Extract Shape Trace Examples.

(** X6.  The extractor never lets an exception out.  It returns [True]
    exactly when it has written one report, named after the PDF with
    ['.pdf'] removed and ['_extracted.md'] appended, holding at least one
    row; when it returns [False] it has written nothing. *)
Theorem report_written_iff_true (lib : Library) (pdf_path : str) :
  let output_file :=
    Py.replace s{".pdf"} [] (Py.basename pdf_path) ++ s{"_extracted.md"} in
  let run := extract_line_items_from_pdf lib pdf_path in
  (value run = inr true /\
   exists r t, reports (events run) = [(output_file, r :: t)]) \/
  (value run = inr false /\ reports (events run) = []).
Proof. exact (DriverMore.run_outcome lib pdf_path). Qed.

(** X7.  A PDF that cannot be opened, or that has no page, is reported as
    an unexpected error: the extractor returns [False] without asking for
    a table or for the text, and writes nothing. *)
Theorem unreadable_pdf_fails (lib : Library) (pdf_path : str) :
  (exists e, lib pdf_path = inl e) \/ lib pdf_path = inr [] ->
  extract_line_items_from_pdf lib pdf_path =
  ([Print (VendorStart (get_vendor_info (Py.basename pdf_path)));
    Open pdf_path; Print Unexpected], inr false).
Proof.
  intros H. apply ExtractFacts.run_unopened.
  intros page others E. destruct H as [(e & H) | H]; congruence.
Qed.

Lemma unreadable_pdf_fails_witness :
  extract_line_items_from_pdf (fun _ => inr []) s{"empty.pdf"} =
  ([Print (VendorStart s{"empty"}); Open s{"empty.pdf"}; Print Unexpected],
   inr false).
Proof.
  apply (@unreadable_pdf_fails (fun _ => inr []) s{"empty.pdf"}).
  right. reflexivity.
Defined.

(** X8.  When the table extraction raises, the file is given up: the regex
    fallback is not tried, nothing is written and the extractor returns
    [False]. *)
Theorem failing_table_extraction_aborts
    (lib : Library) (pdf_path : str) (page : Page) (others : list Page) (e : exn) :
  let vendor := get_vendor_info (Py.basename pdf_path) in
  lib pdf_path = inr (page :: others) ->
  extract_table page (cropped_page vendor) GENERIC_STREAM_SETTINGS = inl e ->
  extract_line_items_from_pdf lib pdf_path =
  ([Print (VendorStart vendor); Open pdf_path; Print StrategyA;
    ExtractTable (cropped_page vendor); Print Unexpected], inr false).
Proof.
  intros vendor Hl Ht.
  assert (strategy_A page vendor =
          ([Print StrategyA; ExtractTable (cropped_page vendor)], inl e)) as HA.
  { unfold strategy_A, print.
    rewrite (EffFacts.run_eq (bind _ _)). eff. rewrite Ht. reflexivity. }
  rewrite (@ExtractFacts.run_A_raises lib pdf_path page others Hl e)
    by (fold vendor; rewrite HA; reflexivity).
  fold vendor. rewrite HA. reflexivity.
Qed.

Lemma failing_table_extraction_aborts_witness :
  extract_line_items_from_pdf
    (one_page {| extract_table := fun _ _ => inl OtherError;
                 extract_text := inr two_priced_lines |})
    s{"Foley_7.pdf"} =
  ([Print (VendorStart s{"Foley"}); Open s{"Foley_7.pdf"}; Print StrategyA;
    ExtractTable (Cropped (20, 250, 590, 780)%Z); Print Unexpected], inr false).
Proof.
  apply (@failing_table_extraction_aborts
           (one_page {| extract_table := fun _ _ => inl OtherError;
                        extract_text := inr two_priced_lines |})
           s{"Foley_7.pdf"}
           {| extract_table := fun _ _ => inl OtherError;
              extract_text := inr two_priced_lines |} [] OtherError).
  - reflexivity.
  - reflexivity.
Defined.

(** X9.  For a PDF named [<stem>.pdf] with a dot-free stem, in whatever
    directory, the report is written to [<stem>_extracted.md] in the working
    directory. *)
Theorem report_name
    (lib : Library) (pdf_path stem output_file : str) (rows : list record) :
  Py.basename pdf_path = stem ++ s{".pdf"} ->
  free_of "." stem = true ->
  In (Write output_file rows) (events (extract_line_items_from_pdf lib pdf_path)) ->
  output_file = stem ++ s{"_extracted.md"}.
Proof.
  intros Hname Hstem Hw. apply DriverMore.reports_in in Hw.
  destruct (DriverMore.run_outcome lib pdf_path) as [(_ & r & t & E) | (_ & E)];
    rewrite E in Hw.
  - destruct Hw as [Hw | []]. injection Hw as Hf _. rewrite <- Hf, Hname.
    exact (f_equal (fun x => x ++ s{"_extracted.md"})
             (NameMore.replace_pdf_suffix _ Hstem)).
  - destruct Hw.
Qed.

Lemma report_name_witness :
  s{"acme_12_extracted.md"} = s{"acme_12"} ++ s{"_extracted.md"}.
Proof.
  apply (@report_name
           (one_page (page_of (Some price_first_table) []))
           s{"invoices/2024/acme_12.pdf"} s{"acme_12"} s{"acme_12_extracted.md"}
           [ {| Description := s{"$5.00"}; Total_Price := s{"$5.00"} |};
             {| Description := s{"$7.50"}; Total_Price := s{"$7.50"} |} ]).
  - reflexivity.
  - reflexivity.
  - vm_compute. do 5 right. left. reflexivity.
Defined.

End DriverProps.

(** *** ocr.py and batch_ocr.py *)

Module OcrMore.
Import OcrWorld Shape Trace.

(** The OCR stage, by what the engine answers. *)
Lemma perform_ocr_eq fs path :
  perform_ocr fs path =
  match ocr_pdf (fs path) with
  | inr pdf_data =>
      ([RunOCR path; Write (output_path path) pdf_data;
        Print (OcrSuccess (output_path path))],
       inr (Some (output_path path)))
  | inl TesseractNotFoundError => ([RunOCR path; Print TesseractMissing], inr None)
  | inl OtherError => ([RunOCR path; Print OcrError], inr None)
  end.
Proof.
  unfold perform_ocr, print. destruct (ocr_pdf (fs path)) as [[|] | data];
    reflexivity.
Qed.

Lemma single_missing fs path :
  exists_ (fs path) = false ->
  Ocr.convert_to_searchable_pdf fs path = ([Print NotFound], inr None).
Proof.
  intros H. unfold Ocr.convert_to_searchable_pdf. rewrite H. reflexivity.
Qed.

Lemma batch_little_text fs path text :
  exists_ (fs path) = true ->
  first_page_text (fs path) = inr text ->
  length (Py.strip text) <= 100 ->
  Py.contains MARKER (Py.basename path) = false ->
  BatchOcr.convert_to_searchable_pdf fs path =
  ([ReadFirstPage path; Print PerformingOCR] ++ events (perform_ocr fs path),
   value (perform_ocr fs path)).
Proof.
  intros Hex Hread Hlen Hname.
  rewrite (EffFacts.run_eq (BatchOcr.convert_to_searchable_pdf fs path)).
  unfold BatchOcr.convert_to_searchable_pdf, print.
  rewrite Hex, Hname. cbn [negb]. eff. rewrite Hread. eff.
  destruct (Nat.ltb_spec 100 (length (Py.strip text))); [lia |].
  cbn [andb]. eff. reflexivity.
Qed.

Lemma perform_ocr_outcome fs path (pre : list event) :
  ocr_files pre = [] ->
  (exists pdf_data, ocr_pdf (fs path) = inr pdf_data /\
     value (perform_ocr fs path) = inr (Some (output_path path)) /\
     ocr_files (pre ++ events (perform_ocr fs path)) =
       [(output_path path, pdf_data)]) \/
  (value (perform_ocr fs path) = inr None /\
   ocr_files (pre ++ events (perform_ocr fs path)) = []).
Proof.
  intros Hpre. unfold ocr_files in *. rewrite flat_map_app, Hpre.
  rewrite perform_ocr_eq.
  destruct (ocr_pdf (fs path)) as [[|] | data]; cbn; eauto.
Qed.

Lemma batch_outcome fs path :
  ocr_outcome fs path (BatchOcr.convert_to_searchable_pdf fs path).
Proof.
  unfold ocr_outcome.
  destruct (exists_ (fs path)) eqn:Hex.
  2: { right. right. rewrite (OcrFacts.batch_missing fs path Hex).
       split; reflexivity. }
  destruct (Py.contains MARKER (Py.basename path)) eqn:Hname.
  { right. right. rewrite (OcrFacts.batch_marked fs path Hex Hname).
    destruct (first_page_text (fs path)); split; reflexivity. }
  destruct (first_page_text (fs path)) as [x | text] eqn:Hread.
  { right. rewrite (OcrFacts.batch_read_error_unmarked fs path Hex Hread Hname).
    cbn [events value fst snd].
    apply (perform_ocr_outcome fs path
             [ReadFirstPage path; Print ReadError; Print PerformingOCR]).
    reflexivity. }
  destruct (Nat.ltb_spec 100 (length (Py.strip text))) as [Hlen | Hlen].
  - left. rewrite (OcrFacts.batch_searchable fs path Hex Hread Hlen Hname).
    cbn [events value fst snd In]. repeat split.
    intros [[=] | [[=] | []]].
  - right. rewrite (batch_little_text fs path Hex Hread Hlen Hname).
    cbn [events value fst snd].
    apply (perform_ocr_outcome fs path [ReadFirstPage path; Print PerformingOCR]).
    reflexivity.
Qed.

Lemma single_outcome fs path :
  ocr_outcome fs path (Ocr.convert_to_searchable_pdf fs path).
Proof.
  unfold ocr_outcome.
  destruct (exists_ (fs path)) eqn:Hex.
  2: { right. right. rewrite (single_missing fs path Hex). split; reflexivity. }
  destruct (first_page_text (fs path)) as [x | text] eqn:Hread.
  { right. right. rewrite (OcrFacts.single_read_error fs path Hex Hread).
    split; reflexivity. }
  destruct (Nat.ltb_spec 100 (length (Py.strip text))) as [Hlen | Hlen].
  - left. rewrite (OcrFacts.single_searchable fs path Hex Hread Hlen).
    cbn [events value fst snd In]. repeat split.
    intros [[=] | [[=] | []]].
  - right. rewrite (OcrFacts.single_little_text fs path Hex Hread Hlen).
    cbn [events value fst snd].
    apply (perform_ocr_outcome fs path [ReadFirstPage path; Print PerformingOCR]).
    reflexivity.
Qed.

Lemma ocr_files_in l f data : In (Write f data) l -> In (f, data) (ocr_files l).
Proof.
  intros H. unfold ocr_files. apply in_flat_map.
  exists (Write f data). split; [exact H | left; reflexivity].
Qed.

(** A piece of a split holds no separator. *)
Lemma split_free sep : forall s l, In l (Py.split sep s) -> ~ In sep l.
Proof.
  induction s as [| x s IH]; intros l Hl.
  - simpl in Hl. destruct Hl as [<- | []]. intros [].
  - cbn [Py.split] in Hl.
    destruct (NameFacts.split_cons sep s) as (h & t & Hs). rewrite Hs in *.
    destruct (Ascii.eqb x sep) eqn:E.
    + destruct Hl as [<- | Hl]; [intros [] | apply IH; exact Hl].
    + destruct Hl as [<- | Hl]; [| apply IH; right; exact Hl].
      intros [-> | H]; [rewrite Ascii.eqb_refl in E; discriminate |].
      exact (IH h (or_introl eq_refl) H).
Qed.

Lemma basename_free p : ~ In "/"%char (Py.basename p).
Proof.
  unfold Py.basename.
  destruct (NameFacts.split_cons "/" p) as (h & t & Hs).
  apply (split_free "/" p). rewrite Hs.
  destruct (exists_last (l := h :: t)) as (l' & a & E); [discriminate |].
  rewrite E, last_last. apply in_or_app. right. left. reflexivity.
Qed.

Lemma split_whole sep s : ~ In sep s -> Py.split sep s = [s].
Proof.
  induction s as [| x s IH]; [reflexivity |].
  intros H. cbn [Py.split].
  destruct (Ascii.eqb x sep) eqn:E.
  - apply Ascii.eqb_eq in E. destruct H. left. exact E.
  - rewrite IH; [reflexivity |]. intros H'. apply H. right. exact H'.
Qed.

Lemma basename_plain s : ~ In "/"%char s -> Py.basename s = s.
Proof. intros H. unfold Py.basename. rewrite (@split_whole "/" s H). reflexivity. Qed.

Lemma in_replace_from_nil old c : forall s skip,
  In c (Py.replace_from old [] skip s) -> In c s.
Proof.
  induction s as [| x s IH]; intros skip H; [destruct H |].
  cbn [Py.replace_from] in H. destruct skip; [| right; eauto].
  destruct (Py.startswith old (x :: s)).
  - right. eauto.
  - destruct H as [<- | H]; [left; reflexivity | right; eauto].
Qed.

(** The output path is a plain file name that carries the marker. *)
Lemma output_path_marked p :
  Py.basename (output_path p) = output_path p /\
  Py.contains MARKER (output_path p) = true.
Proof.
  split.
  - apply basename_plain. unfold output_path. intros H.
    apply in_app_or in H as [H | H].
    + apply in_replace_from_nil in H. exact (basename_free _ H).
    + revert H. apply ShapeFacts.free_of_in. reflexivity.
  - unfold output_path. apply NameFacts.contains_app.
    apply NameFacts.startswith_contains. reflexivity.
Qed.

End OcrMore.

Module OcrProps.
Import OcrWorld Shape Trace Examples.

(** X10.  On a path where no file exists both converters report it and
    return [None]: nothing is read, recognised or written. *)
Theorem missing_file_is_reported (fs : FileSystem) (path : str) :
  exists_ (fs path) = false ->
  Ocr.convert_to_searchable_pdf fs path = ([Print NotFound], inr None) /\
  BatchOcr.convert_to_searchable_pdf fs path = ([Print NotFound], inr None).
Proof.
  intros H. split.
  - exact (OcrMore.single_missing fs path H).
  - exact (OcrFacts.batch_missing fs path H).
Qed.

Lemma missing_file_is_reported_witness :
  Ocr.convert_to_searchable_pdf
    (fun _ => {| exists_ := false; first_page_text := inl OtherError;
                 ocr_pdf := inl OtherError |}) s{"gone.pdf"} =
    ([Print NotFound], inr None) /\
  BatchOcr.convert_to_searchable_pdf
    (fun _ => {| exists_ := false; first_page_text := inl OtherError;
                 ocr_pdf := inl OtherError |}) s{"gone.pdf"} =
    ([Print NotFound], inr None).
Proof.
  apply (@missing_file_is_reported
           (fun _ => {| exists_ := false; first_page_text := inl OtherError;
                        ocr_pdf := inl OtherError |}) s{"gone.pdf"}).
  reflexivity.
Defined.

(** X11.  Neither converter lets an exception out, and each call ends in
    one of three ways: it returns the input path, having run no OCR and
    written nothing; it returns the output path, having written exactly the
    engine's PDF to that path; or it returns [None], having written
    nothing. *)
Theorem converter_outcome (fs : FileSystem) (path : str) :
  ocr_outcome fs path (Ocr.convert_to_searchable_pdf fs path) /\
  ocr_outcome fs path (BatchOcr.convert_to_searchable_pdf fs path).
Proof.
  split; [apply OcrMore.single_outcome | apply OcrMore.batch_outcome].
Qed.

(** X12.  The threshold is strict and counts stripped text: with at most
    100 characters left after stripping, ocr.py goes on to the OCR stage,
    and so does batch_ocr.py on an unmarked name. *)
Theorem little_text_goes_to_ocr (fs : FileSystem) (path text : str) :
  exists_ (fs path) = true ->
  first_page_text (fs path) = inr text ->
  length (Py.strip text) <= 100 ->
  Ocr.convert_to_searchable_pdf fs path =
    ([ReadFirstPage path; Print PerformingOCR] ++ events (perform_ocr fs path),
     value (perform_ocr fs path)) /\
  (Py.contains MARKER (Py.basename path) = false ->
   BatchOcr.convert_to_searchable_pdf fs path =
     ([ReadFirstPage path; Print PerformingOCR] ++ events (perform_ocr fs path),
      value (perform_ocr fs path))).
Proof.
  intros Hex Hread Hlen. split.
  - exact (OcrFacts.single_little_text fs path Hex Hread Hlen).
  - exact (OcrMore.batch_little_text fs path Hex Hread Hlen).
Qed.

Lemma little_text_goes_to_ocr_witness :
  Ocr.convert_to_searchable_pdf
    (fun _ => {| exists_ := true;
                 first_page_text := inr (repeat " "%char 40 ++ repeat "a"%char 100);
                 ocr_pdf := inr s{"%PDF"} |}) s{"scan.pdf"} =
  ([ReadFirstPage s{"scan.pdf"}; Print PerformingOCR; RunOCR s{"scan.pdf"};
    Write s{"scan_OCR_Layer.pdf"} s{"%PDF"};
    Print (OcrSuccess s{"scan_OCR_Layer.pdf"})],
   inr (Some s{"scan_OCR_Layer.pdf"})).
Proof.
  refine (proj1 (@little_text_goes_to_ocr
                   (fun _ => {| exists_ := true;
                                first_page_text :=
                                  inr (repeat " "%char 40 ++ repeat "a"%char 100);
                                ocr_pdf := inr s{"%PDF"} |})
                   s{"scan.pdf"} (repeat " "%char 40 ++ repeat "a"%char 100)
                   _ _ _)).
  - reflexivity.
  - reflexivity.
  - vm_compute. lia.
Defined.

(** X13.  batch_ocr.py never processes its own output: the output path of
    any input is a plain file name that carries the marker, so a call on it
    returns [None], runs no OCR and writes nothing, whatever the file
    holds. *)
Theorem batch_skips_its_own_output (fs : FileSystem) (path : str) :
  let run := BatchOcr.convert_to_searchable_pdf fs (output_path path) in
  Py.contains MARKER (Py.basename (output_path path)) = true /\
  value run = inr None /\
  ocr_files (events run) = [] /\
  forall q, ~ In (RunOCR q) (events run).
Proof.
  intros run. destruct (OcrMore.output_path_marked path) as (Hb & Hm).
  assert (Py.contains MARKER (Py.basename (output_path path)) = true) as Hname
    by (rewrite Hb; exact Hm).
  split; [exact Hname |]. unfold run.
  destruct (exists_ (fs (output_path path))) eqn:Hex.
  - rewrite (OcrFacts.batch_marked fs (output_path path) Hex Hname).
    destruct (first_page_text (fs (output_path path)));
      cbn [events value fst snd In]; repeat split;
      intros q H; repeat (destruct H as [H | H]; [discriminate |]); exact H.
  - rewrite (OcrFacts.batch_missing fs (output_path path) Hex).
    cbn [events value fst snd In]. repeat split.
    intros q [[=] | []].
Qed.

(** X14.  For an input named [<stem>.pdf] with a dot-free stem, in whatever
    directory, whatever either converter writes goes to
    [<stem>_OCR_Layer.pdf] in the working directory. *)
Theorem ocr_output_name
    (fs : FileSystem) (path stem output_pdf_path pdf_data : str) :
  Py.basename path = stem ++ s{".pdf"} ->
  free_of "." stem = true ->
  In (Write output_pdf_path pdf_data)
     (events (Ocr.convert_to_searchable_pdf fs path)) \/
  In (Write output_pdf_path pdf_data)
     (events (BatchOcr.convert_to_searchable_pdf fs path)) ->
  output_pdf_path = stem ++ s{"_OCR_Layer.pdf"}.
Proof.
  intros Hname Hstem Hw.
  assert (output_path path = stem ++ s{"_OCR_Layer.pdf"}) as Hout.
  { unfold output_path. rewrite Hname.
    exact (f_equal (fun x => x ++ MARKER) (NameMore.replace_pdf_suffix _ Hstem)). }
  assert (forall run, ocr_outcome fs path run ->
            In (Write output_pdf_path pdf_data) (events run) ->
            output_pdf_path = output_path path) as K.
  { intros run O H. apply OcrMore.ocr_files_in in H.
    destruct O as [(_ & E & _) | [(d & _ & _ & E) | (_ & E)]]; rewrite E in H.
    - destruct H.
    - destruct H as [[= <- _] | []]. reflexivity.
    - destruct H. }
  rewrite <- Hout.
  destruct Hw as [H | H];
    [ exact (K _ (OcrMore.single_outcome fs path) H)
    | exact (K _ (OcrMore.batch_outcome fs path) H) ].
Qed.

Lemma ocr_output_name_witness :
  s{"scan_OCR_Layer.pdf"} = s{"scan"} ++ s{"_OCR_Layer.pdf"}.
Proof.
  apply (@ocr_output_name scanned s{"in/box/scan.pdf"} s{"scan"}
           s{"scan_OCR_Layer.pdf"} s{"%PDF"}).
  - reflexivity.
  - reflexivity.
  - left. vm_compute. do 3 right. left. reflexivity.
Defined.

End OcrProps.

(** *** The command lines *)

Module MainMore.
Import Shape Trace.

Lemma inner_app l1 l2 : inner (l1 ++ l2) = inner l1 ++ inner l2.
Proof. apply flat_map_app. Qed.

Lemma said_app l1 l2 : said (l1 ++ l2) = said l1 ++ said l2.
Proof. apply flat_map_app. Qed.

Lemma inner_of l : inner (map ExtractMain.Of l) = l.
Proof. induction l as [| e l IH]; simpl; [| rewrite IH]; reflexivity. Qed.

Lemma said_of l : said (map ExtractMain.Of l) = [].
Proof. induction l as [| e l IH]; simpl; auto. Qed.

Lemma said_say b l : said (ExtractMain.Say b :: l) = b :: said l.
Proof. reflexivity. Qed.

Lemma inner_say b l : inner (ExtractMain.Say b :: l) = inner l.
Proof. reflexivity. Qed.

(** The loop over the files: it never stops early, announces every file in
    order, and adds to the count the number of reports written. *)
Lemma extract_for_each lib : forall pdf_files count,
  exists k,
    value (ExtractMain.for_each lib pdf_files count) = inr (count + k) /\
    said (events (ExtractMain.for_each lib pdf_files count)) =
      map (fun p => ExtractMain.Processing (Py.basename p)) pdf_files /\
    length (reports
              (inner (events (ExtractMain.for_each lib pdf_files count)))) = k /\
    k <= length pdf_files.
Proof.
  induction pdf_files as [| p rest IH]; intros count.
  - exists 0. cbn. rewrite Nat.add_0_r. auto.
  - cbn [ExtractMain.for_each]. unfold ExtractMain.say, ExtractMain.call. eff.
    set (run := Extract.extract_line_items_from_pdf lib p).
    destruct (DriverMore.run_outcome lib p) as [(Hv & r & t & Hr) | (Hv & Hr)];
      fold run in Hv, Hr; rewrite Hv.
    + destruct (IH (S count)) as (k & IHv & IHs & IHr & IHk).
      exists (S k). rewrite IHv.
      rewrite said_say, inner_say.
      rewrite !said_app, !inner_app, said_of, inner_of, IHs.
      rewrite DriverMore.reports_app, Hr, length_app, IHr.
      cbn. repeat split; auto; try lia; try (f_equal; lia).
    + destruct (IH count) as (k & IHv & IHs & IHr & IHk).
      exists k. rewrite IHv.
      rewrite said_say, inner_say.
      rewrite !said_app, !inner_app, said_of, inner_of, IHs.
      rewrite DriverMore.reports_app, Hr, length_app, IHr.
      cbn. repeat split; auto; lia.
Qed.

Lemma startswith_app_l a b : forall s,
  Py.startswith (a ++ b) s = true -> Py.startswith a s = true.
Proof.
  induction a as [| x a IH]; intros s; [reflexivity |].
  destruct s as [| y s]; cbn [app Py.startswith]; [discriminate |].
  intros H. apply andb_true_iff in H as (-> & H). exact (IH _ H).
Qed.

Lemma contains_app_l a b : forall s,
  Py.contains (a ++ b) s = true -> Py.contains a s = true.
Proof.
  induction s as [| y s IH]; cbn [Py.contains]; intros H;
    apply orb_true_iff in H as [H | H];
    try (rewrite (startswith_app_l _ _ _ H); reflexivity).
  - discriminate.
  - rewrite (IH H). apply orb_true_r.
Qed.

Lemma contains_basename x p :
  Py.contains x (Py.basename p) = true -> Py.contains x p = true.
Proof.
  intros H. destruct (NameFacts.basename_suffix p) as (pre & Hp).
  rewrite Hp. apply NameFacts.contains_app. exact H.
Qed.

(** A file that passes the filter of line 82 does not carry the marker. *)
Lemma candidate_unmarked f :
  Py.contains s{"_OCR_Layer"} f = false ->
  Py.contains OcrWorld.MARKER (Py.basename f) = false.
Proof.
  intros H. destruct (Py.contains OcrWorld.MARKER (Py.basename f)) eqn:E;
    [| reflexivity].
  apply contains_basename in E.
  change OcrWorld.MARKER with (s{"_OCR_Layer"} ++ s{".pdf"}) in E.
  apply contains_app_l in E. congruence.
Qed.

(** The skip of line 36 happens on marked names only. *)
Lemma skip_only_marked fs path :
  In (OcrWorld.Print OcrWorld.AlreadyProcessed)
     (events (BatchOcr.convert_to_searchable_pdf fs path)) ->
  Py.contains OcrWorld.MARKER (Py.basename path) = true.
Proof.
  destruct (Py.contains OcrWorld.MARKER (Py.basename path)) eqn:Hname;
    [reflexivity |].
  intros H. exfalso. revert H.
  assert (forall pre,
            ~ In (OcrWorld.Print OcrWorld.AlreadyProcessed) pre ->
            ~ In (OcrWorld.Print OcrWorld.AlreadyProcessed)
                (pre ++ events (OcrWorld.perform_ocr fs path))) as K.
  { intros pre Hpre H. apply in_app_or in H as [H | H]; [exact (Hpre H) |].
    rewrite OcrMore.perform_ocr_eq in H.
    destruct (OcrWorld.ocr_pdf (fs path)) as [[|] | data];
      cbn [events fst In] in H;
      repeat (destruct H as [H | H]; [discriminate |]); exact H. }
  destruct (OcrWorld.exists_ (fs path)) eqn:Hex.
  2: { rewrite (OcrFacts.batch_missing fs path Hex).
       cbn [events fst In]. intros [[=] | []]. }
  destruct (OcrWorld.first_page_text (fs path)) as [x | text] eqn:Hread.
  { rewrite (OcrFacts.batch_read_error_unmarked fs path Hex Hread Hname).
    cbn [events fst]. apply K. cbn [In]. intros [[=] | [[=] | [[=] | []]]]. }
  destruct (Nat.ltb_spec 100 (length (Py.strip text))) as [Hlen | Hlen].
  - rewrite (OcrFacts.batch_searchable fs path Hex Hread Hlen Hname).
    cbn [events fst In]. intros [[=] | [[=] | []]].
  - rewrite (OcrMore.batch_little_text fs path Hex Hread Hlen Hname).
    cbn [events fst]. apply K. cbn [In]. intros [[=] | [[=] | []]].
Qed.

Lemma batch_value fs path :
  exists returned, value (BatchOcr.convert_to_searchable_pdf fs path) = inr returned.
Proof.
  destruct (OcrMore.batch_outcome fs path)
    as [(E & _) | [(d & _ & E & _) | (E & _)]]; eauto.
Qed.

(** The loop of batch_ocr.py over unmarked names never reports a file as
    already processed, and never stops early. *)
Lemma ocr_for_each fs : forall pdf_files count,
  (forall f, In f pdf_files -> Py.contains s{"_OCR_Layer"} f = false) ->
  (exists k, value (OcrMain.for_each fs pdf_files count) = inr k) /\
  ~ In (OcrMain.Of (OcrWorld.Print OcrWorld.AlreadyProcessed))
       (events (OcrMain.for_each fs pdf_files count)).
Proof.
  induction pdf_files as [| p rest IH]; intros count Hfiles.
  - split; [exists count; reflexivity | intros []].
  - cbn [OcrMain.for_each]. unfold OcrMain.say, OcrMain.call. eff.
    destruct (batch_value fs p) as (returned & Hv). rewrite Hv.
    destruct (IH (if OcrMain.truthy returned then S count else count))
      as ((k & IHv) & IHe); [intros f Hf; apply Hfiles; right; exact Hf |].
    split; [exists k; exact IHv |].
    intros [[=] | H]. apply in_app_or in H as [H | H]; [| exact (IHe H)].
    apply in_map_iff in H as (e & [= ->] & He).
    apply skip_only_marked in He.
    rewrite candidate_unmarked in He; [discriminate |].
    apply Hfiles. left. reflexivity.
Qed.

End MainMore.

Module MainProps.
Import Shape Trace Examples.

(** X15.  In batch mode on a non-empty list of PDFs, extract.py announces
    every file in order, carries on whatever happens to a file, and ends
    with status 0 after a summary whose count is the number of reports
    written during the run. *)
Theorem batch_summary_counts_reports
    (argv glob_pdf : list str) (lib : Extract.Library) :
  length argv <= 1 ->
  glob_pdf <> [] ->
  let run := ExtractMain.main argv glob_pdf lib in
  value run = inr 0%Z /\
  length (reports (inner (events run))) <= length glob_pdf /\
  said (events run) =
    ExtractMain.BatchFound (length glob_pdf)
    :: map (fun p => ExtractMain.Processing (Py.basename p)) glob_pdf
    ++ [ExtractMain.BatchComplete;
        ExtractMain.Total (length (reports (inner (events run))))
          (length glob_pdf)].
Proof.
  intros Hargv Hglob run. unfold run, ExtractMain.main.
  destruct (Nat.ltb_spec 1 (length argv)); [lia |].
  destruct glob_pdf as [| p rest]; [congruence |].
  destruct (MainMore.extract_for_each lib (p :: rest) 0)
    as (k & Hv & Hs & Hr & Hk).
  unfold ExtractMain.say. eff. rewrite Hv. eff.
  rewrite MainMore.said_say, MainMore.inner_say.
  rewrite !MainMore.said_app, !MainMore.inner_app, Hs.
  rewrite DriverMore.reports_app, length_app, Hr.
  cbn [said inner reports flat_map app length Nat.add].
  rewrite !Nat.add_0_r. split; [reflexivity |]. split; [exact Hk | reflexivity].
Qed.

Lemma batch_summary_counts_reports_witness :
  value (ExtractMain.main [s{"extract.py"}] [s{"a.pdf"}; s{"b.pdf"}]
           (one_page (page_of (Some price_first_table) []))) = inr 0%Z.
Proof.
  apply (@batch_summary_counts_reports [s{"extract.py"}] [s{"a.pdf"}; s{"b.pdf"}]
           (one_page (page_of (Some price_first_table) []))).
  - simpl. lia.
  - discriminate.
Defined.

(** X16.  extract.py ends with status 1 only when it is given no path and
    finds no PDF; it then opens nothing.  In every other case it ends with
    status 0, whatever happens to the files. *)
Theorem extract_exit_status
    (argv glob_pdf : list str) (lib : Extract.Library) :
  let run := ExtractMain.main argv glob_pdf lib in
  if (length argv <=? 1) && match glob_pdf with [] => true | _ :: _ => false end
  then run = ([ExtractMain.Say ExtractMain.BatchMode;
               ExtractMain.Say ExtractMain.NoPdfFound], inr 1%Z)
  else value run = inr 0%Z.
Proof.
  intros run. unfold run, ExtractMain.main.
  destruct (Nat.leb_spec (length argv) 1) as [H | H];
    destruct (Nat.ltb_spec 1 (length argv)); try lia; cbn [andb].
  - destruct glob_pdf as [| p rest]; [reflexivity |].
    destruct (MainMore.extract_for_each lib (p :: rest) 0) as (k & Hv & _).
    unfold ExtractMain.say. eff. rewrite Hv. eff. reflexivity.
  - unfold ExtractMain.say, ExtractMain.call. eff.
    destruct (DriverMore.run_outcome lib (nth 1 argv []))
      as [(Hv & _) | (Hv & _)]; rewrite Hv; reflexivity.
Qed.

(** X17.  In batch mode batch_ocr.py leaves out every file whose name holds
    ['_OCR_Layer'], so that no file is ever reported as already processed:
    the skip inside the converter is reached in single-file mode only. *)
Theorem batch_mode_never_skips
    (argv glob_pdf : list str) (fs : OcrWorld.FileSystem) :
  length argv <= 1 ->
  let run := OcrMain.batch_main argv glob_pdf fs in
  (exists status, value run = inr status) /\
  ~ In (OcrMain.Of (OcrWorld.Print OcrWorld.AlreadyProcessed)) (events run).
Proof.
  intros Hargv run. unfold run, OcrMain.batch_main.
  destruct (Nat.ltb_spec 1 (length argv)); [lia |].
  assert (forall f, In f (OcrMain.candidates glob_pdf) ->
            Py.contains s{"_OCR_Layer"} f = false) as Hc.
  { intros f Hf. apply filter_In in Hf as (_ & Hf).
    apply negb_true_iff in Hf. exact Hf. }
  destruct (OcrMain.candidates glob_pdf) as [| p rest] eqn:E.
  - split; [eexists; reflexivity |].
    cbn. intros [[=] | [[=] | []]].
  - destruct (MainMore.ocr_for_each fs (p :: rest) 0 Hc) as ((k & Hv) & He).
    unfold OcrMain.say. eff. rewrite Hv. eff.
    split; [eexists; reflexivity |].
    intros [[=] | Hin]. apply in_app_or in Hin as [Hin | [[=] | [[=] | []]]].
    exact (He Hin).
Qed.

Lemma batch_mode_never_skips_witness :
  ~ In (OcrMain.Of (OcrWorld.Print OcrWorld.AlreadyProcessed))
       (events (OcrMain.batch_main [s{"batch_ocr.py"}]
                  [s{"scan.pdf"}; s{"scan_OCR_Layer.pdf"}] scanned)).
Proof.
  apply (@batch_mode_never_skips [s{"batch_ocr.py"}]
           [s{"scan.pdf"}; s{"scan_OCR_Layer.pdf"}] scanned).
  simpl. lia.
Defined.

End MainProps.

Module MoreProps.
Import Shape Trace Examples.

(** X18.  ocr.py needs a path: without one it prints its usage and ends
    with status 1, touching no file; with one it ends with status 0
    whatever the converter does. *)
Theorem ocr_exit_status (argv : list str) (fs : OcrWorld.FileSystem) :
  let run := OcrMain.ocr_main argv fs in
  if length argv <? 2
  then run = ([OcrMain.Say OcrMain.Usage], inr 1%Z)
  else value run = inr 0%Z.
Proof.
  intros run. unfold run, OcrMain.ocr_main.
  destruct (length argv <? 2); [reflexivity |].
  unfold OcrMain.call. eff.
  destruct (OcrMore.single_outcome fs (nth 1 argv []))
    as [(E & _) | [(d & _ & E & _) | (E & _)]]; rewrite E; reflexivity.
Qed.

(** X19.  The vendor name never holds ['_'], ['.'] or ['/'], whatever the
    file name. *)
Theorem vendor_is_plain (filename : str) :
  let vendor := Extract.get_vendor_info filename in
  free_of "_" vendor = true /\ free_of "." vendor = true /\
  free_of "/" vendor = true.
Proof.
  intros vendor. unfold vendor, Extract.get_vendor_info.
  destruct (Py.contains s{"Haskins Inc"} filename || Py.contains s{"Rinker"} filename);
    [repeat split |].
  destruct (Py.contains s{"Foley"} filename); [repeat split |].
  set (b := Py.basename filename).
  destruct (NameFacts.split_cons "_" b) as (h & t & Hs).
  destruct (NameFacts.split_cons "." h) as (h' & t' & Hh).
  assert (Py.first (Py.split "." (Py.first (Py.split "_" b))) = h') as ->
    by (unfold Py.first; rewrite Hs; cbn [hd]; rewrite Hh; reflexivity).
  assert (In h (Py.split "_" b)) as Ih by (rewrite Hs; left; reflexivity).
  assert (In h' (Py.split "." h)) as Ih' by (rewrite Hh; left; reflexivity).
  rewrite !ShapeFacts.free_of_in. repeat split.
  - intros H. apply (OcrMore.split_free "_" b h Ih).
    exact (RegexMore.in_split _ _ _ _ Ih' H).
  - exact (OcrMore.split_free "." h h' Ih').
  - intros H. apply (OcrMore.basename_free filename). fold b.
    apply (RegexMore.in_split _ _ _ _ Ih).
    exact (RegexMore.in_split _ _ _ _ Ih' H).
Qed.

End MoreProps.
